(** * NeST topology control plane: namespaces, interfaces, links and shaping

    A shallow embedding of [nest/topology.py].  Python objects live in a
    store and are named by their position in it, so that aliasing (an
    interface referenced from its namespace's [interface_list], from its
    peer's [pair] field and from the caller) is kept.  Every method is a
    computation in a state-and-exception monad over that store. *)

From Stdlib Require Import Ascii String.
From stdpp Require Import base list strings pretty.

Open Scope string_scope.
Open Scope list_scope.

(** ** Exceptions *)

(** The Python exception classes raised by the module, the failure of the
    command collaborator, and [DanglingReference], which only the embedding
    has: the result of following a store position that holds no object. *)
Inductive exn :=
  | NotImplementedError   (* the spec's NamespaceNotAssigned *)
  | ValueError            (* the spec's InvalidMode *)
  | AttributeError        (* attribute looked up on None, or never set *)
  | AddressError          (* raised by the Address constructor *)
  | ExternalCommandFailed (* an engine call failed *)
  | DanglingReference.

Inductive result (A : Type) :=
  | Ok (a : A)
  | Raise (e : exn).
Arguments Ok {A} a.
Arguments Raise {A} e.

(** ** Data model *)

Abbreviation ns_ref := nat (only parsing).
Abbreviation if_ref := nat (only parsing).

(** Keyword arguments, in the order they were given. *)
Abbreviation kwargs := (list (string * string)) (only parsing).

(** Modelled from the spec: the Address object (nest/address.py is not among
    the sources): the text of an IP literal with an optional prefix. *)
Record Address := { ip_addr : string }.

(** Modelled from the spec: [Address.get_addr], rendering with or without
    the subnet suffix. *)
Fixpoint strip_subnet (s : string) : string :=
  match s with
  | EmptyString => EmptyString
  | String c rest => if Ascii.eqb c "/" then EmptyString else String c (strip_subnet rest)
  end.

Definition get_addr (a : Address) (without_subnet : bool) : string :=
  if without_subnet then strip_subnet (ip_addr a) else ip_addr a.

(** Modelled from the spec: the objects of nest/traffic_control.py (not among
    the sources).  Each records where its node sits; the kind-specific
    parameters are handed to the engine when the node is installed. *)
Record Qdisc := {
  q_namespace_id : string; q_dev_id : string; q_qdisc : string;
  q_parent : string; q_handle : string }.

Record Class := {
  c_namespace_id : string; c_dev_id : string; c_qdisc : string;
  c_parent : string; c_classid : string }.

Record Filter := {
  f_namespace_id : string; f_dev_id : string; f_protocol : string;
  f_priority : string; f_filtertype : string; f_flowid : string;
  f_parent : string; f_handle : string }.

(** [ns_name = None] is a Namespace object on which [self.name] was never
    assigned. *)
Record Namespace := {
  ns_name : option string;
  ns_id : string;
  interface_list : list if_ref }.

Record Interface := {
  if_name : string;
  if_id : string;
  if_namespace : ns_ref;
  if_pair : option if_ref;
  if_address : option Address;
  if_mirred_to_ifb : bool;
  if_ifb : option if_ref;
  qdisc_list : list Qdisc;
  class_list : list Class;
  filter_list : list Filter }.

(** ** The command collaborator *)

(** Commands composed as text and passed to [engine.exec_subprocess]. *)
Inductive ShellCommand :=
  | TcClassChange (ns dev parent classid qdisc rate : string)
  | TcQdiscChange (ns dev parent handle qdisc delay : string).

Definition command_text (c : ShellCommand) : string :=
  match c with
  | TcClassChange ns dev parent classid qdisc rate =>
      "ip netns exec " +:+ ns +:+ " tc class change dev " +:+ dev +:+ " parent " +:+ parent
      +:+ " classid " +:+ classid +:+ " " +:+ qdisc +:+ " rate " +:+ rate
  | TcQdiscChange ns dev parent handle qdisc delay =>
      "ip netns exec " +:+ ns +:+ " tc qdisc change dev " +:+ dev +:+ " parent " +:+ parent
      +:+ " handle " +:+ handle +:+ " " +:+ qdisc +:+ " delay " +:+ delay
  end.

(** The calls into [engine], one constructor per function of that module
    used by topology.py and traffic_control.py. *)
Inductive Cmd :=
  | CreateNs (ns : string)
  | AddIntToNs (ns dev : string)
  | AssignIp (ns dev addr : string)
  | SetInterfaceMode (ns dev mode : string)
  | EnIpForwarding (ns : string)
  | SetupIfb (ns dev : string)
  | CreateVeth (dev1 dev2 : string)
  | AddRoute (ns dest next_hop via : string)
  | AddQdisc (ns dev qdisc parent handle : string) (params : kwargs)
  | AddClass (ns dev qdisc parent classid : string) (params : kwargs)
  | AddFilter (ns dev protocol priority filtertype : string) (flowid : option string)
              (parent handle : string) (params : kwargs)
  | ExecSubprocess (c : ShellCommand).

(** ** The store *)

(** [id_counter] is the state of [ID_GEN]; [trace] the engine calls that
    succeeded, oldest first; [faults] the outcomes of the engine calls still
    to come ([true]: the call fails), every call beyond the list succeeding. *)
Record World := {
  id_counter : nat;
  namespaces : list Namespace;
  interfaces : list Interface;
  trace : list Cmd;
  faults : list bool }.

Definition set_id_counter (n : nat) (w : World) : World :=
  {| id_counter := n; namespaces := namespaces w; interfaces := interfaces w;
     trace := trace w; faults := faults w |}.
Definition set_namespaces (l : list Namespace) (w : World) : World :=
  {| id_counter := id_counter w; namespaces := l; interfaces := interfaces w;
     trace := trace w; faults := faults w |}.
Definition set_interfaces (l : list Interface) (w : World) : World :=
  {| id_counter := id_counter w; namespaces := namespaces w; interfaces := l;
     trace := trace w; faults := faults w |}.
Definition set_trace (l : list Cmd) (w : World) : World :=
  {| id_counter := id_counter w; namespaces := namespaces w; interfaces := interfaces w;
     trace := l; faults := faults w |}.
Definition set_faults (l : list bool) (w : World) : World :=
  {| id_counter := id_counter w; namespaces := namespaces w; interfaces := interfaces w;
     trace := trace w; faults := l |}.

Definition empty_world : World :=
  {| id_counter := 0; namespaces := []; interfaces := []; trace := []; faults := [] |}.

(** ** The monad *)

Definition M (A : Type) : Type := World -> result A * World.

Definition ret {A} (a : A) : M A := fun w => (Ok a, w).
Definition raise {A} (e : exn) : M A := fun w => (Raise e, w).
Definition bind {A B} (m : M A) (k : A -> M B) : M B :=
  fun w => match m w with
           | (Ok a, w') => k a w'
           | (Raise e, w') => (Raise e, w')
           end.

Notation "x <- m ;; k" := (bind m (fun x => k))
  (at level 100, m at next level, right associativity).
Notation "m ;; k" := (bind m (fun _ => k))
  (at level 100, right associativity).

Definition read_ns (r : ns_ref) : M Namespace :=
  fun w => match namespaces w !! r with
           | Some n => (Ok n, w)
           | None => (Raise DanglingReference, w)
           end.
(** An assignment to an attribute of a stored object, or an append to one
    of its lists: the object is changed where it is. *)
Definition update_ns (r : ns_ref) (f : Namespace -> Namespace) : M unit :=
  fun w => match namespaces w !! r with
           | Some n => (Ok tt, set_namespaces (<[r := f n]> (namespaces w)) w)
           | None => (Raise DanglingReference, w)
           end.
Definition alloc_ns (n : Namespace) : M ns_ref :=
  fun w => (Ok (length (namespaces w)), set_namespaces (namespaces w ++ [n]) w).

Definition read_if (r : if_ref) : M Interface :=
  fun w => match interfaces w !! r with
           | Some i => (Ok i, w)
           | None => (Raise DanglingReference, w)
           end.
Definition update_if (r : if_ref) (f : Interface -> Interface) : M unit :=
  fun w => match interfaces w !! r with
           | Some i => (Ok tt, set_interfaces (<[r := f i]> (interfaces w)) w)
           | None => (Raise DanglingReference, w)
           end.
Definition alloc_if (i : Interface) : M if_ref :=
  fun w => (Ok (length (interfaces w)), set_interfaces (interfaces w ++ [i]) w).

(** Modelled from the spec: [ID_GEN.get_id] (nest/id_generator.py is not
    among the sources): a monotonic counter rendered as a string. *)
Definition ID_GEN_get_id : M string :=
  fun w => (Ok (pretty (id_counter w)), set_id_counter (S (id_counter w)) w).

(** Modelled from the spec: a call into the engine (nest/engine is not among
    the sources, but for dynamic_routing.py): it either fails, which is
    propagated as an exception, or takes effect. *)
Definition engine (c : Cmd) : M unit :=
  fun w => match faults w with
           | true :: rest => (Raise ExternalCommandFailed, set_faults rest w)
           | false :: rest => (Ok tt, set_trace (trace w ++ [c]) (set_faults rest w))
           | [] => (Ok tt, set_trace (trace w ++ [c]) w)
           end.

(** ** Python values needed for the [is False] tests *)

(** [x is False] holds for the object [False] only.  An attribute that names
    a method evaluates to a bound method object. *)
Inductive PyValue :=
  | PyBool (b : bool)
  | PyBoundMethod (method : string) (self : if_ref).

Definition py_is_False (v : PyValue) : bool :=
  match v with
  | PyBool false => true
  | _ => false
  end.

(** [str.lower] on ASCII text. *)
Definition lower_ascii (c : ascii) : ascii :=
  let n := nat_of_ascii c in
  if (65 <=? n)%nat && (n <=? 90)%nat then ascii_of_nat (n + 32) else c.

Fixpoint lower (s : string) : string :=
  match s with
  | EmptyString => EmptyString
  | String c rest => String (lower_ascii c) (lower rest)
  end.

(** An argument documented as "Address or string". *)
Inductive AddrArg :=
  | AStr (s : string)
  | AObj (a : Address).

(** ** Field updates *)

Definition with_namespace (n : ns_ref) (i : Interface) : Interface :=
  {| if_name := if_name i; if_id := if_id i; if_namespace := n; if_pair := if_pair i;
     if_address := if_address i; if_mirred_to_ifb := if_mirred_to_ifb i; if_ifb := if_ifb i;
     qdisc_list := qdisc_list i; class_list := class_list i; filter_list := filter_list i |}.
Definition with_pair (p : option if_ref) (i : Interface) : Interface :=
  {| if_name := if_name i; if_id := if_id i; if_namespace := if_namespace i; if_pair := p;
     if_address := if_address i; if_mirred_to_ifb := if_mirred_to_ifb i; if_ifb := if_ifb i;
     qdisc_list := qdisc_list i; class_list := class_list i; filter_list := filter_list i |}.
Definition with_address (a : option Address) (i : Interface) : Interface :=
  {| if_name := if_name i; if_id := if_id i; if_namespace := if_namespace i; if_pair := if_pair i;
     if_address := a; if_mirred_to_ifb := if_mirred_to_ifb i; if_ifb := if_ifb i;
     qdisc_list := qdisc_list i; class_list := class_list i; filter_list := filter_list i |}.
Definition with_mirred_to_ifb (b : bool) (i : Interface) : Interface :=
  {| if_name := if_name i; if_id := if_id i; if_namespace := if_namespace i; if_pair := if_pair i;
     if_address := if_address i; if_mirred_to_ifb := b; if_ifb := if_ifb i;
     qdisc_list := qdisc_list i; class_list := class_list i; filter_list := filter_list i |}.
Definition with_ifb (b : option if_ref) (i : Interface) : Interface :=
  {| if_name := if_name i; if_id := if_id i; if_namespace := if_namespace i; if_pair := if_pair i;
     if_address := if_address i; if_mirred_to_ifb := if_mirred_to_ifb i; if_ifb := b;
     qdisc_list := qdisc_list i; class_list := class_list i; filter_list := filter_list i |}.
Definition with_qdisc_list (l : list Qdisc) (i : Interface) : Interface :=
  {| if_name := if_name i; if_id := if_id i; if_namespace := if_namespace i; if_pair := if_pair i;
     if_address := if_address i; if_mirred_to_ifb := if_mirred_to_ifb i; if_ifb := if_ifb i;
     qdisc_list := l; class_list := class_list i; filter_list := filter_list i |}.
Definition with_class_list (l : list Class) (i : Interface) : Interface :=
  {| if_name := if_name i; if_id := if_id i; if_namespace := if_namespace i; if_pair := if_pair i;
     if_address := if_address i; if_mirred_to_ifb := if_mirred_to_ifb i; if_ifb := if_ifb i;
     qdisc_list := qdisc_list i; class_list := l; filter_list := filter_list i |}.
Definition with_filter_list (l : list Filter) (i : Interface) : Interface :=
  {| if_name := if_name i; if_id := if_id i; if_namespace := if_namespace i; if_pair := if_pair i;
     if_address := if_address i; if_mirred_to_ifb := if_mirred_to_ifb i; if_ifb := if_ifb i;
     qdisc_list := qdisc_list i; class_list := class_list i; filter_list := l |}.
Definition with_interface_list (l : list if_ref) (n : Namespace) : Namespace :=
  {| ns_name := ns_name n; ns_id := ns_id n; interface_list := l |}.

(** ** class Namespace *)

(** [Namespace.__init__].  The object enters the store once its fields are
    set; when [engine.create_ns] fails no reference to it survives. *)
Definition Namespace_init (name : string) : M ns_ref :=
  if negb (String.eqb name "") then
    id <- ID_GEN_get_id ;;
    engine (CreateNs id) ;;
    alloc_ns {| ns_name := Some name; ns_id := id; interface_list := [] |}
  else
    alloc_ns {| ns_name := None; ns_id := "default"; interface_list := [] |}.

Definition Namespace_get_id (self : ns_ref) : M string :=
  n <- read_ns self ;; ret (ns_id n).

Definition is_default (self : ns_ref) : M bool :=
  id <- Namespace_get_id self ;;
  if String.eqb id "default" then ret true else ret false.

Definition get_name (self : ns_ref) : M string :=
  n <- read_ns self ;;
  match ns_name n with
  | Some name => ret name
  | None => raise AttributeError
  end.

(** [Node.__init__] and [Router.__init__]; the [Configuration] registry they
    also fill is bookkeeping of the experiment layer and holds no topology
    state. *)
Definition Node_init (node_name : string) : M ns_ref :=
  Namespace_init node_name.

Definition Router_init (router_name : string) : M ns_ref :=
  self <- Namespace_init router_name ;;
  id <- Namespace_get_id self ;;
  engine (EnIpForwarding id) ;;
  ret self.

(** ** class Interface *)

(** The fields as [Interface.__init__] sets them. *)
Definition new_interface (interface_name id : string) (namespace : ns_ref) : Interface :=
  {| if_name := interface_name; if_id := id; if_namespace := namespace;
     if_pair := None; if_address := None;
     if_mirred_to_ifb := false; if_ifb := None;
     qdisc_list := []; class_list := []; filter_list := [] |}.

Definition Interface_init (interface_name : string) (namespace : ns_ref) : M if_ref :=
  id <- ID_GEN_get_id ;;
  alloc_if (new_interface interface_name id namespace).

Definition _set_pair (self : if_ref) (interface : if_ref) : M unit :=
  update_if self (with_pair (Some interface)).

Definition get_pair (self : if_ref) : M (option if_ref) :=
  i <- read_if self ;; ret (if_pair i).

Definition Interface_get_id (self : if_ref) : M string :=
  i <- read_if self ;; ret (if_id i).

Definition _set_namespace (self : if_ref) (namespace : ns_ref) : M unit :=
  update_if self (with_namespace namespace).

Definition get_namespace (self : if_ref) : M ns_ref :=
  i <- read_if self ;; ret (if_namespace i).

Definition get_address (self : if_ref) : M (option Address) :=
  i <- read_if self ;; ret (if_address i).

(** [Namespace.add_interface], placed here because it calls
    [Interface._set_namespace]. *)
Definition add_interface (self : ns_ref) (interface : if_ref) : M unit :=
  update_ns self (fun n => with_interface_list (interface_list n ++ [interface]) n) ;;
  _set_namespace interface self ;;
  ns_id <- Namespace_get_id self ;;
  dev <- Interface_get_id interface ;;
  engine (AddIntToNs ns_id dev).

Section WithAddress.

(** The constructor [Address(text)] of the absent nest/address.py: [None]
    when it raises. *)
Variable Address_init : string -> option Address.

(** The Address an argument stands for: itself, or what the constructor
    makes of the text. *)
Definition address_of (a : AddrArg) : option Address :=
  match a with
  | AObj a => Some a
  | AStr s => Address_init s
  end.

Definition to_address (a : AddrArg) : M Address :=
  match a with
  | AObj a => ret a
  | AStr s => match Address_init s with
              | Some a => ret a
              | None => raise AddressError
              end
  end.

Definition add_route (self : ns_ref) (dest_addr next_hop_addr : AddrArg)
    (via_interface : if_ref) : M unit :=
  dest_addr <- to_address dest_addr ;;
  next_hop_addr <- to_address next_hop_addr ;;
  n <- read_ns self ;;
  via <- Interface_get_id via_interface ;;
  engine (AddRoute (ns_id n) (get_addr dest_addr true) (get_addr next_hop_addr true) via).

Definition set_address (self : if_ref) (address : AddrArg) : M unit :=
  address <- to_address address ;;
  ns <- get_namespace self ;;
  d <- is_default ns ;;
  if py_is_False (PyBool d) then
    ns <- get_namespace self ;;
    ns_id <- Namespace_get_id ns ;;
    dev <- Interface_get_id self ;;
    engine (AssignIp ns_id dev (get_addr address false)) ;;
    update_if self (with_address (Some address))
  else
    raise NotImplementedError.

End WithAddress.

Definition set_mode (self : if_ref) (mode : string) : M unit :=
  if String.eqb mode "UP" || String.eqb mode "DOWN" then
    ns <- get_namespace self ;;
    d <- is_default ns ;;
    if py_is_False (PyBool d) then
      ns <- get_namespace self ;;
      ns_id <- Namespace_get_id ns ;;
      dev <- Interface_get_id self ;;
      engine (SetInterfaceMode ns_id dev (lower mode))
    else
      raise NotImplementedError
  else
    raise ValueError.

(** Modelled from the spec: the constructors of nest/traffic_control.py
    (not among the sources): each installs its node through the engine
    (install_pipeline_node) and yields the object. *)
Definition Qdisc_init (namespace_id dev_id qdisc parent handle : string) (kw : kwargs)
    : M Qdisc :=
  engine (AddQdisc namespace_id dev_id qdisc parent handle kw) ;;
  ret {| q_namespace_id := namespace_id; q_dev_id := dev_id; q_qdisc := qdisc;
         q_parent := parent; q_handle := handle |}.

Definition Class_init (namespace_id dev_id qdisc parent classid : string) (kw : kwargs)
    : M Class :=
  engine (AddClass namespace_id dev_id qdisc parent classid kw) ;;
  ret {| c_namespace_id := namespace_id; c_dev_id := dev_id; c_qdisc := qdisc;
         c_parent := parent; c_classid := classid |}.

Definition Filter_init (namespace_id dev_id protocol priority filtertype flowid
    parent handle : string) (kw : kwargs) : M Filter :=
  engine (AddFilter namespace_id dev_id protocol priority filtertype (Some flowid)
            parent handle kw) ;;
  ret {| f_namespace_id := namespace_id; f_dev_id := dev_id; f_protocol := protocol;
         f_priority := priority; f_filtertype := filtertype; f_flowid := flowid;
         f_parent := parent; f_handle := handle |}.

Definition add_qdisc (self : if_ref) (qdisc parent handle : string) (kw : kwargs)
    : M Qdisc :=
  ns <- get_namespace self ;;
  ns_id <- Namespace_get_id ns ;;
  dev <- Interface_get_id self ;;
  q <- Qdisc_init ns_id dev qdisc parent handle kw ;;
  update_if self (fun i => with_qdisc_list (qdisc_list i ++ [q]) i) ;;
  ret q.

Definition add_class (self : if_ref) (qdisc parent classid : string) (kw : kwargs)
    : M Class :=
  ns <- get_namespace self ;;
  ns_id <- Namespace_get_id ns ;;
  dev <- Interface_get_id self ;;
  c <- Class_init ns_id dev qdisc parent classid kw ;;
  update_if self (fun i => with_class_list (class_list i ++ [c]) i) ;;
  ret c.

Definition add_filter (self : if_ref) (priority filtertype flowid protocol parent
    handle : string) (kw : kwargs) : M Filter :=
  ns <- get_namespace self ;;
  ns_id <- Namespace_get_id ns ;;
  dev <- Interface_get_id self ;;
  f <- Filter_init ns_id dev protocol priority filtertype flowid parent handle kw ;;
  update_if self (fun i => with_filter_list (filter_list i ++ [f]) i) ;;
  ret f.

Definition _create_ifb (self : if_ref) : M unit :=
  ns <- get_namespace self ;;
  b <- Interface_init "ifb" ns ;;
  update_if self (with_ifb (Some b)) ;;
  bns <- get_namespace b ;;
  ns_id <- Namespace_get_id bns ;;
  dev <- Interface_get_id b ;;
  engine (SetupIfb ns_id dev).

(** [self.ifb.get_id()]: an attribute error when [self.ifb] is [None]. *)
Definition ifb_of (self : if_ref) : M if_ref :=
  i <- read_if self ;;
  match if_ifb i with
  | Some b => ret b
  | None => raise AttributeError
  end.

Definition _mirred_to_ifb (self : if_ref) : M unit :=
  update_if self (with_mirred_to_ifb true) ;;
  _create_ifb self ;;
  let default_route := [("default", "1")] in
  add_qdisc self "htb" "root" "1:" default_route ;;
  let default_bandwidth := [("rate", "10mbit")] in
  add_class self "htb" "1:" "1:1" default_bandwidth ;;
  add_qdisc self "netem" "1:1" "11:" [] ;;
  b <- ifb_of self ;;
  ifb_id <- Interface_get_id b ;;
  let action_redirect :=
    [("match", "u32 0 0"); ("action", "mirred"); ("egress", "redirect"); ("dev", ifb_id)] in
  ns <- get_namespace self ;;
  ns_id <- Namespace_get_id ns ;;
  dev <- Interface_get_id self ;;
  engine (AddFilter ns_id dev "ip" "1" "u32" None "1:" "" action_redirect).

Definition set_min_bandwidth (self : if_ref) (min_rate : string) : M unit :=
  i <- read_if self ;;
  (if py_is_False (PyBool (if_mirred_to_ifb i)) then _mirred_to_ifb self else ret tt) ;;
  ns <- get_namespace self ;;
  ns_id <- Namespace_get_id ns ;;
  dev <- Interface_get_id self ;;
  engine (ExecSubprocess (TcClassChange ns_id dev "1:" "1:1" "htb" min_rate)).

Definition set_delay (self : if_ref) (delay : string) : M unit :=
  i <- read_if self ;;
  (if py_is_False (PyBool (if_mirred_to_ifb i)) then _mirred_to_ifb self else ret tt) ;;
  ns <- get_namespace self ;;
  ns_id <- Namespace_get_id ns ;;
  dev <- Interface_get_id self ;;
  engine (ExecSubprocess (TcQdiscChange ns_id dev "1:1" "11:" "netem" delay)).

(** [set_qdisc] tests [self._mirred_to_ifb], the method, not the flag
    [self.mirred_to_ifb]. *)
Definition set_qdisc (self : if_ref) (qdisc : string) : M unit :=
  _ <- read_if self ;;
  (if py_is_False (PyBoundMethod "_mirred_to_ifb" self) then _mirred_to_ifb self
   else ret tt) ;;
  i <- read_if self ;;
  match if_ifb i with
  | None => raise AttributeError
  | Some b => _ <- add_qdisc b "codel" "root" "" [] ;; ret tt
  end.

(** ** class Veth and [connect] *)

Definition Veth_init (ns1 ns2 : ns_ref) (interface1_name interface2_name : string)
    : M (if_ref * if_ref) :=
  interface1 <- Interface_init interface1_name ns1 ;;
  interface2 <- Interface_init interface2_name ns2 ;;
  _set_pair interface1 interface2 ;;
  _set_pair interface2 interface1 ;;
  id1 <- Interface_get_id interface1 ;;
  id2 <- Interface_get_id interface2 ;;
  engine (CreateVeth id1 id2) ;;
  ret (interface1, interface2).

Definition get_interfaces (veth : if_ref * if_ref) : if_ref * if_ref := veth.

(** The loop of [number_of_connections]. *)
Fixpoint count_connections (l : list if_ref) (ns2 : ns_ref) (connections : nat) : M nat :=
  match l with
  | [] => ret connections
  | interface :: rest =>
      p <- get_pair interface ;;
      match p with
      | None => raise AttributeError
      | Some q =>
          n <- get_namespace q ;;
          count_connections rest ns2
            (if Nat.eqb n ns2 then connections + 1 else connections)
      end
  end.

Definition number_of_connections (ns1 ns2 : ns_ref) : M nat :=
  n1 <- read_ns ns1 ;;
  n2 <- read_ns ns2 ;;
  let '(ns1, ns2) :=
    if (length (interface_list n2) <? length (interface_list n1))%nat
    then (ns2, ns1) else (ns1, ns2) in
  n1 <- read_ns ns1 ;;
  count_connections (interface_list n1) ns2 0.

Definition connect (ns1 ns2 : ns_ref) (interface1_name interface2_name : string)
    : M (if_ref * if_ref) :=
  names <-
    (if String.eqb interface1_name "" && String.eqb interface2_name "" then
       connections <- number_of_connections ns1 ns2 ;;
       id1 <- Namespace_get_id ns1 ;;
       id2 <- Namespace_get_id ns2 ;;
       ret (id1 +:+ "-" +:+ id2 +:+ "-" +:+ pretty connections,
            id2 +:+ "-" +:+ id1 +:+ "-" +:+ pretty connections)
     else ret (interface1_name, interface2_name)) ;;
  veth <- Veth_init ns1 ns2 names.1 names.2 ;;
  let '(int1, int2) := get_interfaces veth in
  add_interface ns1 int1 ;;
  add_interface ns2 int2 ;;
  set_mode int1 "UP" ;;
  set_mode int2 "UP" ;;
  ret (int1, int2).

(** ** The installed pipeline *)

(** Modelled from the spec: the traffic-control tree that the collaborator
    holds (install_pipeline_node, mutate_pipeline_node): nodes addressed by
    namespace, device, parent and handle, each with its parameter set. *)
Inductive NodeKind := KQdisc | KClass | KFilter.

Record TcNode := {
  tn_ns : string; tn_dev : string; tn_kind : NodeKind; tn_type : string;
  tn_parent : string; tn_handle : string; tn_params : kwargs }.

Definition kind_eqb (a b : NodeKind) : bool :=
  match a, b with
  | KQdisc, KQdisc | KClass, KClass | KFilter, KFilter => true
  | _, _ => false
  end.

Fixpoint set_param (k v : string) (kw : kwargs) : kwargs :=
  match kw with
  | [] => [(k, v)]
  | (k', v') :: rest =>
      if String.eqb k k' then (k, v) :: rest else (k', v') :: set_param k v rest
  end.

Definition at_node (kind : NodeKind) (ns dev parent handle : string) (n : TcNode) : bool :=
  kind_eqb (tn_kind n) kind && String.eqb (tn_ns n) ns && String.eqb (tn_dev n) dev
  && String.eqb (tn_parent n) parent && String.eqb (tn_handle n) handle.

Definition change_node (kind : NodeKind) (ns dev parent handle k v : string)
    (n : TcNode) : TcNode :=
  if at_node kind ns dev parent handle n then
    {| tn_ns := tn_ns n; tn_dev := tn_dev n; tn_kind := tn_kind n; tn_type := tn_type n;
       tn_parent := tn_parent n; tn_handle := tn_handle n;
       tn_params := set_param k v (tn_params n) |}
  else n.

(** The effect of one engine call on the tree: the add calls append a node,
    the change commands mutate the addressed node where it is. *)
Definition tc_step (p : list TcNode) (c : Cmd) : list TcNode :=
  match c with
  | AddQdisc ns dev qdisc parent handle kw =>
      p ++ [{| tn_ns := ns; tn_dev := dev; tn_kind := KQdisc; tn_type := qdisc;
               tn_parent := parent; tn_handle := handle; tn_params := kw |}]
  | AddClass ns dev qdisc parent classid kw =>
      p ++ [{| tn_ns := ns; tn_dev := dev; tn_kind := KClass; tn_type := qdisc;
               tn_parent := parent; tn_handle := classid; tn_params := kw |}]
  | AddFilter ns dev protocol priority filtertype flowid parent handle kw =>
      p ++ [{| tn_ns := ns; tn_dev := dev; tn_kind := KFilter; tn_type := filtertype;
               tn_parent := parent; tn_handle := handle; tn_params := kw |}]
  | ExecSubprocess (TcClassChange ns dev parent classid qdisc rate) =>
      map (change_node KClass ns dev parent classid "rate" rate) p
  | ExecSubprocess (TcQdiscChange ns dev parent handle qdisc delay) =>
      map (change_node KQdisc ns dev parent handle "delay" delay) p
  | _ => p
  end.

Definition run_trace (p : list TcNode) (t : list Cmd) : list TcNode :=
  fold_left tc_step t p.

Definition pipeline (w : World) : list TcNode := run_trace [] (trace w).

(** The nodes installed on one device, in the order they were installed. *)
Definition on_dev (ns dev : string) (n : TcNode) : bool :=
  String.eqb (tn_ns n) ns && String.eqb (tn_dev n) dev.

Definition dev_nodes (ns dev : string) (p : list TcNode) : list TcNode :=
  List.filter (on_dev ns dev) p.

(** The classes among them. *)
Definition is_class (n : TcNode) : bool := kind_eqb (tn_kind n) KClass.

Definition dev_classes (ns dev : string) (p : list TcNode) : list TcNode :=
  List.filter is_class (dev_nodes ns dev p).

(** What a node is and where it sits, its parameters left out. *)
Definition tn_shape (n : TcNode) : NodeKind * string * string * string :=
  (tn_kind n, tn_type n, tn_parent n, tn_handle n).

(** The engine calls of a complete [_mirred_to_ifb] on device [dev] of
    namespace [ns], the mirror being [ifb_id]. *)
Definition shaping_stage (ns dev ifb_id : string) : list Cmd :=
  [ SetupIfb ns ifb_id;
    AddQdisc ns dev "htb" "root" "1:" [("default", "1")];
    AddClass ns dev "htb" "1:" "1:1" [("rate", "10mbit")];
    AddQdisc ns dev "netem" "1:1" "11:" [];
    AddFilter ns dev "ip" "1" "u32" None "1:" ""
      [("match", "u32 0 0"); ("action", "mirred"); ("egress", "redirect"); ("dev", ifb_id)] ].

(** The canonical stage as installed: root htb discipline [1:], its class
    [1:1], the netem discipline [11:] under the class, the redirect filter. *)
Definition canonical_stage (ns dev ifb_id : string) (class_params netem_params : kwargs)
    : list TcNode :=
  [ {| tn_ns := ns; tn_dev := dev; tn_kind := KQdisc; tn_type := "htb";
       tn_parent := "root"; tn_handle := "1:"; tn_params := [("default", "1")] |};
    {| tn_ns := ns; tn_dev := dev; tn_kind := KClass; tn_type := "htb";
       tn_parent := "1:"; tn_handle := "1:1"; tn_params := class_params |};
    {| tn_ns := ns; tn_dev := dev; tn_kind := KQdisc; tn_type := "netem";
       tn_parent := "1:1"; tn_handle := "11:"; tn_params := netem_params |};
    {| tn_ns := ns; tn_dev := dev; tn_kind := KFilter; tn_type := "u32";
       tn_parent := "1:"; tn_handle := "";
       tn_params := [("match", "u32 0 0"); ("action", "mirred"); ("egress", "redirect");
                     ("dev", ifb_id)] |} ].

(** The interface object after a complete [_mirred_to_ifb], the mirror
    being the object [b]. *)
Definition mirrored (b : if_ref) (ns dev : string) (i : Interface) : Interface :=
  {| if_name := if_name i; if_id := if_id i; if_namespace := if_namespace i;
     if_pair := if_pair i; if_address := if_address i;
     if_mirred_to_ifb := true; if_ifb := Some b;
     qdisc_list := qdisc_list i ++
       [ {| q_namespace_id := ns; q_dev_id := dev; q_qdisc := "htb";
            q_parent := "root"; q_handle := "1:" |};
         {| q_namespace_id := ns; q_dev_id := dev; q_qdisc := "netem";
            q_parent := "1:1"; q_handle := "11:" |} ];
     class_list := class_list i ++
       [ {| c_namespace_id := ns; c_dev_id := dev; c_qdisc := "htb";
            c_parent := "1:"; c_classid := "1:1" |} ];
     filter_list := filter_list i |}.

(** The IFB mirrors set up so far in a namespace. *)
Definition is_setup_ifb (c : Cmd) : bool :=
  match c with
  | SetupIfb _ _ => true
  | _ => false
  end.

Definition mirrors_created (w : World) : nat :=
  length (List.filter is_setup_ifb (trace w)).

(** ** Shaping calls *)

Inductive ShapingCall :=
  | SetMinBandwidth (min_rate : string)
  | SetDelay (delay : string).

Definition shaping_call (self : if_ref) (c : ShapingCall) : M unit :=
  match c with
  | SetMinBandwidth min_rate => set_min_bandwidth self min_rate
  | SetDelay delay => set_delay self delay
  end.

(** The change command a shaping call ends with. *)
Definition change_cmd (ns dev : string) (c : ShapingCall) : Cmd :=
  match c with
  | SetMinBandwidth min_rate => ExecSubprocess (TcClassChange ns dev "1:" "1:1" "htb" min_rate)
  | SetDelay delay => ExecSubprocess (TcQdiscChange ns dev "1:1" "11:" "netem" delay)
  end.

(** The parameters of the class [1:1] and of the netem discipline [11:]
    after a first shaping call. *)
Definition class_params_after (c : ShapingCall) : kwargs :=
  match c with
  | SetMinBandwidth min_rate => [("rate", min_rate)]
  | SetDelay _ => [("rate", "10mbit")]
  end.

Definition netem_params_after (c : ShapingCall) : kwargs :=
  match c with
  | SetMinBandwidth _ => []
  | SetDelay delay => [("delay", delay)]
  end.

Definition shaping_calls (self : if_ref) (calls : list ShapingCall) (w : World) : World :=
  fold_left (fun w c => (shaping_call self c w).2) calls w.

(** ** Histories of calls *)

(** The calls a client can make that may change the store: the
    constructors, the methods of [Namespace] and [Interface], the helpers
    with a leading underscore, [Veth] and [connect].  The getters
    ([is_default], [get_id], [get_name], [get_pair], [get_namespace],
    [get_address], [number_of_connections]) change nothing and are left
    out. *)
Inductive Op :=
  | ONamespace (ns_name : string)
  | ONode (node_name : string)
  | ORouter (router_name : string)
  | OAddRoute (self : ns_ref) (dest_addr next_hop_addr : AddrArg) (via_interface : if_ref)
  | OAddInterface (self : ns_ref) (interface : if_ref)
  | OInterface (interface_name : string) (namespace : ns_ref)
  | OSetPair (self interface : if_ref)
  | OSetNamespace (self : if_ref) (namespace : ns_ref)
  | OSetAddress (self : if_ref) (address : AddrArg)
  | OSetMode (self : if_ref) (mode : string)
  | OAddQdisc (self : if_ref) (qdisc parent handle : string) (kw : kwargs)
  | OAddClass (self : if_ref) (qdisc parent classid : string) (kw : kwargs)
  | OAddFilter (self : if_ref) (priority filtertype flowid protocol parent handle : string)
               (kw : kwargs)
  | OCreateIfb (self : if_ref)
  | OMirredToIfb (self : if_ref)
  | OSetMinBandwidth (self : if_ref) (min_rate : string)
  | OSetDelay (self : if_ref) (delay : string)
  | OSetQdisc (self : if_ref) (qdisc : string)
  | OVeth (ns1 ns2 : ns_ref) (interface1_name interface2_name : string)
  | OConnect (ns1 ns2 : ns_ref) (interface1_name interface2_name : string).

Definition ignore {A} (m : M A) : M unit := _ <- m ;; ret tt.

Section Histories.

Variable Address_init : string -> option Address.

Definition exec_op (op : Op) : M unit :=
  match op with
  | ONamespace name => ignore (Namespace_init name)
  | ONode name => ignore (Node_init name)
  | ORouter name => ignore (Router_init name)
  | OAddRoute self d h via => add_route Address_init self d h via
  | OAddInterface self i => add_interface self i
  | OInterface name ns => ignore (Interface_init name ns)
  | OSetPair self i => _set_pair self i
  | OSetNamespace self ns => _set_namespace self ns
  | OSetAddress self a => set_address Address_init self a
  | OSetMode self mode => set_mode self mode
  | OAddQdisc self q p h kw => ignore (add_qdisc self q p h kw)
  | OAddClass self q p c kw => ignore (add_class self q p c kw)
  | OAddFilter self pr ft fl proto p h kw => ignore (add_filter self pr ft fl proto p h kw)
  | OCreateIfb self => _create_ifb self
  | OMirredToIfb self => _mirred_to_ifb self
  | OSetMinBandwidth self r => set_min_bandwidth self r
  | OSetDelay self d => set_delay self d
  | OSetQdisc self q => set_qdisc self q
  | OVeth ns1 ns2 n1 n2 => ignore (Veth_init ns1 ns2 n1 n2)
  | OConnect ns1 ns2 n1 n2 => ignore (connect ns1 ns2 n1 n2)
  end.

(** The store after a call, whether it returned or raised: a caller that
    catches the exception goes on from there. *)
Definition step (w : World) (op : Op) : World := (exec_op op w).2.

Definition run (ops : list Op) (w : World) : World := fold_left step ops w.

End Histories.

(** The next [k] engine calls succeed. *)
Definition succeed (k : nat) (fs : list bool) : Prop :=
  forallb negb (take k fs) = true.

(** A run of the program starts with no object and [ID_GEN] at its first
    identifier; [fs] fixes which engine calls will fail. *)
Definition initial_world (fs : list bool) : World :=
  {| id_counter := 0; namespaces := []; interfaces := []; trace := []; faults := fs |}.

(** ** Links *)

(** The name [connect] gives an interface when none is passed. *)
Definition link_name (id1 id2 : string) (connections : nat) : string :=
  id1 +:+ "-" +:+ id2 +:+ "-" +:+ pretty connections.

(** One end of a link as [connect] leaves it: made by [Veth], paired with
    [peer], added to namespace [ns]. *)
Definition veth_end (name id : string) (ns : ns_ref) (peer : if_ref) : Interface :=
  with_namespace ns (with_pair (Some peer) (new_interface name id ns)).

(** The loop of [number_of_connections] read off the store of interfaces. *)
Fixpoint count_links (ifs : list Interface) (l : list if_ref) (ns2 : ns_ref)
    (connections : nat) : result nat :=
  match l with
  | [] => Ok connections
  | r :: rest =>
      match ifs !! r with
      | None => Raise DanglingReference
      | Some i =>
          match if_pair i with
          | None => Raise AttributeError
          | Some q =>
              match ifs !! q with
              | None => Raise DanglingReference
              | Some j =>
                  count_links ifs rest ns2
                    (if Nat.eqb (if_namespace j) ns2 then connections + 1 else connections)
              end
          end
      end
  end.

(** ** Properties of the store kept along histories *)

(** A property of the two object stores is kept by a computation, whether
    it returns or raises. *)
Definition Sat {A} (Inv : list Namespace -> list Interface -> Prop) (m : M A) : Prop :=
  forall w, Inv (namespaces w) (interfaces w) ->
            Inv (namespaces (m w).2) (interfaces (m w).2).

(** An update of an interface that touches neither its pair nor its mirror. *)
Definition keeps_links (f : Interface -> Interface) : Prop :=
  forall i, if_pair (f i) = if_pair i /\ if_ifb (f i) = if_ifb i.

(** The calls admitted in a history, given on which interfaces the pair
    and the mirror may be assigned. *)
Definition allowed (pair_ok ifb_ok : if_ref -> Prop) (op : Op) : Prop :=
  match op with
  | OSetPair self _ => pair_ok self
  | OCreateIfb self | OMirredToIfb self => ifb_ok self
  | OSetMinBandwidth self _ | OSetDelay self _ => ifb_ok self
  | _ => True
  end.

(** The pair field of the interface held at [r]: [None] when no interface is
    held there, [Some None] when it has no pair. *)
Definition pair_of (ifs : list Interface) (r : if_ref) : option (option if_ref) :=
  if_pair <$> ifs !! r.

(** Pairing is symmetric over the whole store: if A.pair is B then B.pair
    is A. *)
Definition pair_symmetric (ifs : list Interface) : Prop :=
  forall A B, pair_of ifs A = Some (Some B) -> pair_of ifs B = Some (Some A).

(** The same on the list of pair fields, and two positions that point at
    each other. *)
Definition pairs_symmetric (ps : list (option if_ref)) : Prop :=
  forall A B, ps !! A = Some (Some B) -> ps !! B = Some (Some A).

Definition pairs_linked (a b : if_ref) (ps : list (option if_ref)) : Prop :=
  ps !! a = Some (Some b) /\ ps !! b = Some (Some a).

(** A property of the store that depends on the pair fields only. *)
Definition on_pairs (P : list (option if_ref) -> Prop) (_ : list Namespace)
    (ifs : list Interface) : Prop :=
  P (if_pair <$> ifs).

(** A call that is the one-sided pairing helper. *)
Definition is_set_pair (op : Op) : bool :=
  match op with
  | OSetPair _ _ => true
  | _ => false
  end.

(** A shaping call on [self], or one of the two helpers behind it. *)
Definition shapes (self : if_ref) (op : Op) : bool :=
  match op with
  | OSetMinBandwidth r _ | OSetDelay r _ | OMirredToIfb r | OCreateIfb r => Nat.eqb r self
  | _ => false
  end.

(** The interface at [self] has no mirror. *)
Definition no_mirror (self : if_ref) (_ : list Namespace) (ifs : list Interface) : Prop :=
  forall i, ifs !! self = Some i -> if_ifb i = None.

(** The namespace at [r] has this name attribute ([None]: never assigned)
    and this identifier. *)
Definition named (r : ns_ref) (name : option string) (id : string)
    (nss : list Namespace) (_ : list Interface) : Prop :=
  exists n, nss !! r = Some n /\ ns_name n = name /\ ns_id n = id.

(** Text made of decimal digits, as the identifiers of [ID_GEN] are. *)
Definition is_digit (c : ascii) : bool :=
  let n := nat_of_ascii c in (48 <=? n)%nat && (n <=? 57)%nat.

Fixpoint all_digits (s : string) : bool :=
  match s with
  | EmptyString => true
  | String c rest => is_digit c && all_digits rest
  end.

(** ** Sample topologies *)

(** Nodes [n0] and [r0] joined by two links with generated names; the
    result is the four interfaces. *)
Definition two_links : M ((if_ref * if_ref) * (if_ref * if_ref)) :=
  n0 <- Node_init "n0" ;;
  r0 <- Node_init "r0" ;;
  p <- connect n0 r0 "" "" ;;
  q <- connect n0 r0 "" "" ;;
  ret (p, q).

Definition two_links_world : World := (two_links empty_world).2.

(** The two nodes before any link. *)
Definition two_nodes : M (ns_ref * ns_ref) :=
  n0 <- Node_init "n0" ;;
  r0 <- Node_init "r0" ;;
  ret (n0, r0).

Definition two_nodes_world : World := (two_nodes empty_world).2.

(** A node and the default namespace, an interface in each. *)
Definition host_and_node : M (if_ref * if_ref) :=
  host <- Namespace_init "" ;;
  n0 <- Node_init "n0" ;;
  a <- Interface_init "eth-host" host ;;
  b <- Interface_init "eth-n0" n0 ;;
  ret (a, b).

Definition host_and_node_world : World := (host_and_node empty_world).2.

(** The objects held at a position of a sample store. *)
Definition the_interface (w : World) (r : if_ref) : Interface :=
  default (new_interface "" "" 0) (interfaces w !! r).

Definition the_namespace (w : World) (r : ns_ref) : Namespace :=
  default {| ns_name := None; ns_id := ""; interface_list := [] |} (namespaces w !! r).

(** A stand-in for the [Address] constructor that accepts every text. *)
Definition any_address (s : string) : option Address := Some {| ip_addr := s |}.

(** ** Registered interfaces *)

(** The list [number_of_connections] walks: the shorter of the two, the
    first when they are as long. *)
Definition walked (n1 n2 : Namespace) : list if_ref :=
  if (length (interface_list n2) <? length (interface_list n1))%nat
  then interface_list n2 else interface_list n1.

(** A reference to an interface whose pair, if it has one, is an interface
    too. *)
Definition resolves (ifs : list Interface) (r : if_ref) : Prop :=
  exists i, ifs !! r = Some i
    /\ match if_pair i with
       | Some q => is_Some (ifs !! q)
       | None => True
       end.

Definition unpaired (ifs : list Interface) (r : if_ref) : Prop :=
  exists i, ifs !! r = Some i /\ if_pair i = None.

(** The interface at [r] has a pair. *)
Definition has_pair (r : if_ref) (_ : list Namespace) (ifs : list Interface) : Prop :=
  exists i, ifs !! r = Some i /\ is_Some (if_pair i).

(** What the change command of a shaping call does to a node. *)
Definition node_change (ns dev : string) (c : ShapingCall) : TcNode -> TcNode :=
  match c with
  | SetMinBandwidth min_rate => change_node KClass ns dev "1:" "1:1" "rate" min_rate
  | SetDelay delay => change_node KQdisc ns dev "1:1" "11:" "delay" delay
  end.

(** ** More sample topologies *)

(** A stand-in for the [Address] constructor that rejects the empty text. *)
Definition nonempty_address (s : string) : option Address :=
  if String.eqb s "" then None else Some {| ip_addr := s |}.

(** Two nodes, each with one interface that was registered but never
    paired. *)
Definition lone_interfaces : M unit :=
  n0 <- Node_init "n0" ;;
  r0 <- Node_init "r0" ;;
  a <- Interface_init "eth0" n0 ;;
  add_interface n0 a ;;
  b <- Interface_init "eth1" r0 ;;
  add_interface r0 b.

Definition lone_interfaces_world : World := (lone_interfaces empty_world).2.

(** The two links of [two_links] and a third node joined to [n0]. *)
Definition three_nodes_world : World :=
  ((x <- Node_init "x0" ;; connect 0 x "" "") two_links_world).2.

(** * Properties *)

(** ** Running a computation on a store given by its parts *)

Create HintDb exec_db discriminated.

#[export] Hint Unfold bind ret raise ignore read_ns update_ns alloc_ns read_if update_if alloc_if
  ID_GEN_get_id
  Namespace_init Namespace_get_id is_default get_name Node_init Router_init
  Interface_init _set_pair get_pair Interface_get_id _set_namespace get_namespace
  get_address add_interface to_address add_route set_address set_mode
  Qdisc_init Class_init Filter_init add_qdisc add_class add_filter
  _create_ifb ifb_of _mirred_to_ifb set_min_bandwidth set_delay set_qdisc
  Veth_init get_interfaces connect
  set_id_counter set_namespaces set_interfaces set_trace set_faults : exec_db.

Ltac exec_unfold :=
  autounfold with exec_db;
  cbn [id_counter namespaces interfaces trace faults
       py_is_False negb andb orb fst snd
       if_name if_id if_namespace if_pair if_address if_mirred_to_ifb if_ifb
       qdisc_list class_list filter_list ns_name ns_id interface_list
       new_interface mirrored with_namespace with_pair with_address with_mirred_to_ifb with_ifb
       with_qdisc_list with_class_list with_filter_list with_interface_list].

Ltac solve_len :=
  rewrite ?length_insert, ?length_app; cbn [length]; eauto using lookup_lt_Some; lia.

Lemma length_snoc {A} (l : list A) (x : A) : length (l ++ [x]) = S (length l).
Proof. rewrite length_app. cbn. lia. Qed.

Lemma snoc_snoc {A} (l : list A) (x y : A) : (l ++ [x]) ++ [y] = l ++ [x; y].
Proof. rewrite <- app_assoc. reflexivity. Qed.

Lemma insert_last {A} (l : list A) (x y : A) : <[length l := y]> (l ++ [x]) = l ++ [y].
Proof. rewrite insert_app_r_alt by lia. rewrite Nat.sub_diag. reflexivity. Qed.

Lemma insert_last2_0 {A} (l : list A) (a b y : A) :
  <[length l := y]> (l ++ [a; b]) = l ++ [y; b].
Proof. rewrite insert_app_r_alt by lia. rewrite Nat.sub_diag. reflexivity. Qed.

Lemma insert_last2_1 {A} (l : list A) (a b y : A) :
  <[S (length l) := y]> (l ++ [a; b]) = l ++ [a; y].
Proof.
  rewrite insert_app_r_alt by lia.
  replace (S (length l) - length l) with 1 by lia. reflexivity.
Qed.

Lemma lookup_last2_0 {A} (l : list A) (a b : A) : (l ++ [a; b]) !! length l = Some a.
Proof. apply list_lookup_middle. reflexivity. Qed.

Lemma lookup_last2_1 {A} (l : list A) (a b : A) : (l ++ [a; b]) !! S (length l) = Some b.
Proof.
  rewrite lookup_app_r by lia.
  replace (S (length l) - length l) with 1 by lia. reflexivity.
Qed.

Ltac norm_store :=
  repeat first
    [ rewrite length_insert
    | rewrite length_snoc
    | rewrite snoc_snoc
    | rewrite insert_last
    | rewrite insert_last2_0
    | rewrite insert_last2_1
    | rewrite lookup_last2_0
    | rewrite lookup_last2_1
    | rewrite insert_app_l by solve_len
    | rewrite list_insert_insert_eq
    | rewrite lookup_app_l by solve_len
    | rewrite list_lookup_insert_eq by solve_len
    | rewrite list_lookup_insert_ne by lia
    | rewrite list_lookup_middle by solve_len ].

(** Decide a comparison of two literal strings. *)
Ltac eval_eqb :=
  repeat match goal with
    | |- context [String.eqb ?a ?b] =>
        let v := eval vm_compute in (String.eqb a b) in
        match v with
        | true => change (String.eqb a b) with true
        | false => change (String.eqb a b) with false
        end
    end.

Ltac use_lookup :=
  match goal with
  | H : ?l !! ?r = _ |- context [?l !! ?r] => rewrite H
  | H : String.eqb ?a ?b = _ |- context [String.eqb ?a ?b] => rewrite H
  | H : if_mirred_to_ifb ?i = _ |- context [if_mirred_to_ifb ?i] => rewrite H
  | H : number_of_connections ?a ?b ?w = _ |- context [number_of_connections ?a ?b ?w] =>
      rewrite H
  end.

(** *** Engine calls that succeed *)

Lemma succeed_weaken (k k' : nat) (fs : list bool) :
  succeed k fs -> k' <= k -> succeed k' fs.
Proof.
  unfold succeed. revert k k'. induction fs as [|b fs IH]; intros k k' H Hle.
  - destruct k'; reflexivity.
  - destruct k' as [|k']; [reflexivity|]. destruct k as [|k]; [lia|].
    cbn in H |- *. apply andb_true_iff in H as [Hb H].
    rewrite Hb. cbn. apply (IH k k'); [exact H | lia].
Qed.

Lemma succeed_drop (k j : nat) (fs : list bool) :
  succeed k fs -> j <= k -> succeed (k - j) (drop j fs).
Proof.
  unfold succeed. revert k j. induction fs as [|b fs IH]; intros k j H Hle.
  - rewrite drop_nil. destruct (k - j); reflexivity.
  - destruct j as [|j]; [rewrite Nat.sub_0_r; exact H|].
    destruct k as [|k]; [lia|]. cbn in H |- *.
    apply andb_true_iff in H as [_ H]. apply IH; [exact H | lia].
Qed.

Lemma succeed_drop_1 (k j : nat) (fs : list bool) :
  succeed k fs -> j < k -> succeed 1 (drop j fs).
Proof.
  intros H Hlt. apply (succeed_weaken (k - j)); [|lia].
  apply succeed_drop; [exact H | lia].
Qed.

Lemma engine_succeed (c : Cmd) (w : World) :
  succeed 1 (faults w) ->
  engine c w = (Ok tt, set_trace (trace w ++ [c]) (set_faults (drop 1 (faults w)) w)).
Proof.
  unfold succeed, engine. destruct w as [n nss ifs tr fs]. cbn.
  destruct fs as [|[] fs]; cbn; [reflexivity | discriminate | reflexivity].
Qed.

Lemma engine_fail (c : Cmd) (w : World) (fs : list bool) :
  faults w = true :: fs ->
  engine c w = (Raise ExternalCommandFailed, set_faults fs w).
Proof. unfold engine. intros ->. reflexivity. Qed.

Ltac solve_succeed :=
  cbn [faults];
  match goal with
  | H : succeed _ _ |- _ =>
      first [ eapply succeed_drop_1; [exact H | lia]
            | eapply succeed_weaken; [exact H | lia] ]
  end.

Ltac step_engine :=
  rewrite engine_succeed by solve_succeed;
  cbn [faults]; rewrite ?drop_drop; cbn [Nat.add].

Ltac exec :=
  repeat (progress (exec_unfold; norm_store; eval_eqb; try use_lookup; try step_engine)).

(** The same with the outcomes of the engine calls given as a literal list. *)
Ltac exec_literal :=
  repeat (progress (exec_unfold; unfold engine; norm_store; eval_eqb; try use_lookup)).

Lemma eqb_default_false (s : string) : s <> "default" -> String.eqb s "default" = false.
Proof. apply String.eqb_neq. Qed.

Lemma eqb_default_true (s : string) : s = "default" -> String.eqb s "default" = true.
Proof. intros ->. reflexivity. Qed.

(** ** Modes and addresses: the guards of [set_mode] and [set_address] *)

(** C8: a mode other than 'UP' and 'DOWN' makes [set_mode] raise ValueError
    (the spec's InvalidMode) whatever the interface and its namespace are,
    and the store, the engine trace included, is what it was. *)
Theorem set_mode_invalid (w : World) (self : if_ref) (mode : string) :
  mode <> "UP" -> mode <> "DOWN" ->
  set_mode self mode w = (Raise ValueError, w).
Proof.
  intros Hup Hdown. unfold set_mode.
  apply String.eqb_neq in Hup, Hdown. rewrite Hup, Hdown. reflexivity.
Qed.

Section AddressGuard.

Variable Address_init : string -> option Address.

(** C7: on an interface of the default namespace [set_address] and
    [set_mode] raise NotImplementedError (the spec's NamespaceNotAssigned)
    and change nothing; on an interface of another namespace both
    return, and [set_address] stores the address. *)
Theorem set_address_set_mode_guard (w : World) (self : if_ref) (i : Interface)
    (n : Namespace) (address : AddrArg) (a : Address) (mode : string) :
  interfaces w !! self = Some i ->
  namespaces w !! if_namespace i = Some n ->
  address_of Address_init address = Some a ->
  mode = "UP" \/ mode = "DOWN" ->
  (ns_id n = "default" ->
     set_address Address_init self address w = (Raise NotImplementedError, w)
     /\ set_mode self mode w = (Raise NotImplementedError, w))
  /\ (ns_id n <> "default" -> succeed 1 (faults w) ->
     (exists w1, set_address Address_init self address w = (Ok tt, w1)
        /\ interfaces w1 !! self = Some (with_address (Some a) i)
        /\ trace w1 = trace w ++ [AssignIp (ns_id n) (if_id i) (get_addr a false)])
     /\ (exists w2, set_mode self mode w = (Ok tt, w2)
        /\ interfaces w2 = interfaces w
        /\ trace w2 = trace w ++ [SetInterfaceMode (ns_id n) (if_id i) (lower mode)])).
Proof.
  intros Hi Hn Ha Hmode. destruct w as [c nss ifs tr fs]. cbn in Hi, Hn.
  assert (Hto : forall w', to_address Address_init address w' = (Ok a, w')).
  { intros w'. destruct address as [s|a']; cbn in Ha |- *.
    - rewrite Ha. reflexivity.
    - injection Ha as ->. reflexivity. }
  split.
  - intros Hd. apply eqb_default_true in Hd. split.
    + unfold set_address, bind at 1. rewrite Hto. exec. reflexivity.
    + destruct Hmode as [-> | ->]; exec; reflexivity.
  - intros Hd Hf. apply eqb_default_false in Hd. cbn in Hf. split.
    + eexists. unfold set_address, bind at 1. rewrite Hto. exec.
      split; [reflexivity|]. exec. split; reflexivity.
    + destruct Hmode as [-> | ->]; eexists; exec; (split; [reflexivity|]);
        exec; split; reflexivity.
Qed.

End AddressGuard.

(** ** The shaping stage *)

Lemma mirred_to_ifb_complete (w : World) (self : if_ref) (i : Interface) (n : Namespace) :
  interfaces w !! self = Some i ->
  namespaces w !! if_namespace i = Some n ->
  succeed 5 (faults w) ->
  _mirred_to_ifb self w =
    (Ok tt,
     {| id_counter := S (id_counter w);
        namespaces := namespaces w;
        interfaces :=
          <[self := mirrored (length (interfaces w)) (ns_id n) (if_id i) i]> (interfaces w)
          ++ [new_interface "ifb" (pretty (id_counter w)) (if_namespace i)];
        trace := trace w ++ shaping_stage (ns_id n) (if_id i) (pretty (id_counter w));
        faults := drop 5 (faults w) |}).
Proof.
  intros Hi Hn Hs. destruct w as [c nss ifs tr fs]. cbn in Hi, Hn, Hs |- *.
  exec. unfold mirrored, shaping_stage. exec_unfold.
  rewrite <- !app_assoc. reflexivity.
Qed.

(** A shaping call on an unshaped interface: the stage is built, then the
    change command is issued. *)
Lemma shaping_call_first (w : World) (self : if_ref) (i : Interface) (n : Namespace)
    (c : ShapingCall) :
  interfaces w !! self = Some i ->
  namespaces w !! if_namespace i = Some n ->
  if_mirred_to_ifb i = false ->
  succeed 6 (faults w) ->
  shaping_call self c w =
    (Ok tt,
     {| id_counter := S (id_counter w);
        namespaces := namespaces w;
        interfaces :=
          <[self := mirrored (length (interfaces w)) (ns_id n) (if_id i) i]> (interfaces w)
          ++ [new_interface "ifb" (pretty (id_counter w)) (if_namespace i)];
        trace := trace w ++ shaping_stage (ns_id n) (if_id i) (pretty (id_counter w))
                 ++ [change_cmd (ns_id n) (if_id i) c];
        faults := drop 6 (faults w) |}).
Proof.
  intros Hi Hn Hflag Hs.
  assert (H5 : succeed 5 (faults w)) by (eapply succeed_weaken; [exact Hs | lia]).
  pose proof (mirred_to_ifb_complete w self i n Hi Hn H5) as Hm.
  destruct w as [k nss ifs tr fs]. cbn in Hi, Hn, Hs, Hm.
  destruct c as [rate | delay]; unfold shaping_call, set_min_bandwidth, set_delay;
    unfold bind at 1, read_if; cbn [interfaces]; rewrite Hi, Hflag; cbn [py_is_False];
    unfold bind at 1; rewrite Hm; exec; unfold change_cmd;
    rewrite <- ?app_assoc; reflexivity.
Qed.

(** A shaping call on an interface whose flag is set: the store of objects
    is untouched and at most the change command is issued. *)
Lemma shaping_call_mirrored (w : World) (self : if_ref) (i : Interface) (n : Namespace)
    (c : ShapingCall) :
  interfaces w !! self = Some i ->
  namespaces w !! if_namespace i = Some n ->
  if_mirred_to_ifb i = true ->
  (shaping_call self c w =
     (Ok tt, set_trace (trace w ++ [change_cmd (ns_id n) (if_id i) c])
               (set_faults (drop 1 (faults w)) w))
   /\ succeed 1 (faults w))
  \/ (exists fs, faults w = true :: fs
        /\ shaping_call self c w = (Raise ExternalCommandFailed, set_faults fs w)).
Proof.
  intros Hi Hn Hflag. destruct w as [k nss ifs tr fs]. cbn in Hi, Hn.
  destruct fs as [|[] fs].
  - left. assert (Hs : succeed 1 []) by reflexivity. split; [|exact Hs].
    destruct c; unfold shaping_call; exec; reflexivity.
  - right. exists fs. split; [reflexivity|].
    destruct c; unfold shaping_call; exec_literal; reflexivity.
  - left. assert (Hs : succeed 1 (false :: fs)) by reflexivity. split; [|exact Hs].
    destruct c; unfold shaping_call; exec; reflexivity.
Qed.

(** *** The installed tree along a trace *)

Lemma run_trace_app (p : list TcNode) (t1 t2 : list Cmd) :
  run_trace p (t1 ++ t2) = run_trace (run_trace p t1) t2.
Proof. apply fold_left_app. Qed.

Lemma dev_nodes_app (ns dev : string) (p q : list TcNode) :
  dev_nodes ns dev (p ++ q) = dev_nodes ns dev p ++ dev_nodes ns dev q.
Proof. apply List.filter_app. Qed.

Lemma on_dev_change (ns dev : string) (kind : NodeKind) (ns' dev' parent handle k v : string)
    (n : TcNode) :
  on_dev ns dev (change_node kind ns' dev' parent handle k v n) = on_dev ns dev n.
Proof. unfold change_node. destruct (at_node _ _ _ _ _ n); reflexivity. Qed.

Lemma shape_change (kind : NodeKind) (ns' dev' parent handle k v : string) (n : TcNode) :
  tn_shape (change_node kind ns' dev' parent handle k v n) = tn_shape n.
Proof. unfold change_node. destruct (at_node _ _ _ _ _ n); reflexivity. Qed.

Lemma dev_nodes_change (ns dev : string) (kind : NodeKind) (ns' dev' parent handle k v : string)
    (p : list TcNode) :
  dev_nodes ns dev (map (change_node kind ns' dev' parent handle k v) p)
  = map (change_node kind ns' dev' parent handle k v) (dev_nodes ns dev p).
Proof.
  unfold dev_nodes. induction p as [|n p IH]; [reflexivity|]. cbn [map List.filter].
  rewrite on_dev_change. destruct (on_dev ns dev n); cbn [map]; rewrite IH; reflexivity.
Qed.

Lemma on_dev_same (ns dev : string) (kind : NodeKind) (type parent handle : string)
    (kw : kwargs) :
  on_dev ns dev {| tn_ns := ns; tn_dev := dev; tn_kind := kind; tn_type := type;
                   tn_parent := parent; tn_handle := handle; tn_params := kw |} = true.
Proof. unfold on_dev. cbn. rewrite !String.eqb_refl. reflexivity. Qed.

Lemma dev_nodes_stage (ns dev ifb_id : string) (p : list TcNode) :
  dev_nodes ns dev (run_trace p (shaping_stage ns dev ifb_id))
  = dev_nodes ns dev p ++ canonical_stage ns dev ifb_id [("rate", "10mbit")] [].
Proof.
  unfold shaping_stage, run_trace. cbn [fold_left tc_step].
  rewrite !dev_nodes_app. unfold dev_nodes at 2 3 4 5. cbn [List.filter].
  rewrite !on_dev_same, <- !app_assoc. reflexivity.
Qed.

Lemma canonical_change_rate (ns dev ifb_id rate : string) (cp np : kwargs) :
  map (change_node KClass ns dev "1:" "1:1" "rate" rate) (canonical_stage ns dev ifb_id cp np)
  = canonical_stage ns dev ifb_id (set_param "rate" rate cp) np.
Proof.
  unfold canonical_stage, change_node, at_node. cbn [map tn_kind tn_ns tn_dev tn_parent
    tn_handle tn_type tn_params kind_eqb andb].
  rewrite !String.eqb_refl. reflexivity.
Qed.

Lemma canonical_change_delay (ns dev ifb_id delay : string) (cp np : kwargs) :
  map (change_node KQdisc ns dev "1:1" "11:" "delay" delay) (canonical_stage ns dev ifb_id cp np)
  = canonical_stage ns dev ifb_id cp (set_param "delay" delay np).
Proof.
  unfold canonical_stage, change_node, at_node. cbn [map tn_kind tn_ns tn_dev tn_parent
    tn_handle tn_type tn_params kind_eqb andb].
  rewrite !String.eqb_refl. reflexivity.
Qed.

(** The tree on a device after a first shaping call. *)
Lemma dev_nodes_first_call (ns dev ifb_id : string) (c : ShapingCall) (p : list TcNode) :
  dev_nodes ns dev p = [] ->
  dev_nodes ns dev (run_trace p (shaping_stage ns dev ifb_id ++ [change_cmd ns dev c]))
  = canonical_stage ns dev ifb_id (class_params_after c) (netem_params_after c).
Proof.
  intros Hp. rewrite run_trace_app.
  destruct c as [rate | delay]; unfold run_trace at 1; cbn [fold_left tc_step change_cmd];
    rewrite dev_nodes_change, dev_nodes_stage, Hp; cbn [app].
  - apply canonical_change_rate.
  - apply canonical_change_delay.
Qed.

Lemma dev_nodes_rate_change (ns dev rate : string) (p : list TcNode) (t : list Cmd) :
  dev_nodes ns dev (run_trace p (t ++ [change_cmd ns dev (SetMinBandwidth rate)]))
  = map (change_node KClass ns dev "1:" "1:1" "rate" rate) (dev_nodes ns dev (run_trace p t)).
Proof.
  rewrite run_trace_app. unfold run_trace at 1. cbn [fold_left tc_step change_cmd].
  apply dev_nodes_change.
Qed.

Lemma pipeline_change_shape (ns dev ns' dev' : string) (c : ShapingCall) (p : list TcNode) :
  map tn_shape (dev_nodes ns dev (tc_step p (change_cmd ns' dev' c)))
  = map tn_shape (dev_nodes ns dev p).
Proof.
  destruct c; cbn [change_cmd tc_step]; rewrite dev_nodes_change, map_map;
    apply map_ext; intros n; apply shape_change.
Qed.

Lemma mirrors_created_change (tr : list Cmd) (ns dev : string) (c : ShapingCall) :
  length (List.filter is_setup_ifb (tr ++ [change_cmd ns dev c]))
  = length (List.filter is_setup_ifb tr).
Proof.
  rewrite List.filter_app. destruct c; cbn; rewrite app_nil_r; reflexivity.
Qed.

(** Once the flag is set, shaping calls leave the objects, the mirrors and
    the shape of every installed tree as they are, whether the engine
    accepts their change commands or not. *)
Lemma shaping_calls_stable (calls : list ShapingCall) (self : if_ref) (i : Interface)
    (n : Namespace) (w : World) :
  interfaces w !! self = Some i ->
  namespaces w !! if_namespace i = Some n ->
  if_mirred_to_ifb i = true ->
  let w' := shaping_calls self calls w in
  interfaces w' = interfaces w
  /\ namespaces w' = namespaces w
  /\ id_counter w' = id_counter w
  /\ mirrors_created w' = mirrors_created w
  /\ forall ns dev, map tn_shape (dev_nodes ns dev (pipeline w'))
                    = map tn_shape (dev_nodes ns dev (pipeline w)).
Proof.
  revert w. induction calls as [|c calls IH]; intros w Hi Hn Hflag; [cbn; auto|].
  change (shaping_calls self (c :: calls) w)
    with (shaping_calls self calls (shaping_call self c w).2).
  cbv zeta. set (w1 := (shaping_call self c w).2).
  assert (H1 : interfaces w1 = interfaces w /\ namespaces w1 = namespaces w
               /\ id_counter w1 = id_counter w
               /\ mirrors_created w1 = mirrors_created w
               /\ forall ns dev, map tn_shape (dev_nodes ns dev (pipeline w1))
                                 = map tn_shape (dev_nodes ns dev (pipeline w))).
  { subst w1.
    destruct (shaping_call_mirrored w self i n c Hi Hn Hflag) as [[-> _] | (fs & _ & ->)];
      destruct w as [k nss ifs tr fs0];
      unfold mirrors_created, pipeline, set_trace, set_faults;
      cbn [fst snd interfaces namespaces id_counter trace faults];
      repeat split; try reflexivity.
    - apply mirrors_created_change.
    - intros ns dev. rewrite run_trace_app. apply pipeline_change_shape. }
  destruct H1 as (Hifs & Hnss & Hid & Hm & Hsh).
  assert (Hi1 : interfaces w1 !! self = Some i) by (rewrite Hifs; exact Hi).
  assert (Hn1 : namespaces w1 !! if_namespace i = Some n) by (rewrite Hnss; exact Hn).
  destruct (IH w1 Hi1 Hn1 Hflag) as (Hifs' & Hnss' & Hid' & Hm' & Hsh').
  refine (conj _ (conj _ (conj _ (conj _ _)))); congruence.
Qed.

(** C1: on an unshaped interface with no class yet, two calls of
    [set_min_bandwidth], with rates [r1] then [r2], return and leave one
    class object on the interface and one class node installed on the
    device, the htb class [1:1], and its rate is [r2]: the stage was built
    once, by the first call, and the second call issued its change command
    only. *)
Theorem set_min_bandwidth_twice (w : World) (self : if_ref) (i : Interface) (n : Namespace)
    (r1 r2 : string) :
  interfaces w !! self = Some i ->
  namespaces w !! if_namespace i = Some n ->
  if_mirred_to_ifb i = false ->
  class_list i = [] ->
  dev_nodes (ns_id n) (if_id i) (pipeline w) = [] ->
  succeed 7 (faults w) ->
  exists w2 i2,
    (set_min_bandwidth self r1 ;; set_min_bandwidth self r2) w = (Ok tt, w2)
    /\ interfaces w2 !! self = Some i2
    /\ class_list i2 =
         [ {| c_namespace_id := ns_id n; c_dev_id := if_id i; c_qdisc := "htb";
              c_parent := "1:"; c_classid := "1:1" |} ]
    /\ dev_classes (ns_id n) (if_id i) (pipeline w2) =
         [ {| tn_ns := ns_id n; tn_dev := if_id i; tn_kind := KClass; tn_type := "htb";
              tn_parent := "1:"; tn_handle := "1:1"; tn_params := [("rate", r2)] |} ]
    /\ dev_nodes (ns_id n) (if_id i) (pipeline w2) =
         canonical_stage (ns_id n) (if_id i) (pretty (id_counter w)) [("rate", r2)] []
    /\ trace w2 =
         trace w ++ shaping_stage (ns_id n) (if_id i) (pretty (id_counter w))
         ++ [change_cmd (ns_id n) (if_id i) (SetMinBandwidth r1);
             change_cmd (ns_id n) (if_id i) (SetMinBandwidth r2)].
Proof.
  intros Hi Hn Hflag Hcl Hp Hs.
  assert (H6 : succeed 6 (faults w)) by (eapply succeed_weaken; [exact Hs | lia]).
  pose proof (shaping_call_first w self i n (SetMinBandwidth r1) Hi Hn Hflag H6) as H1.
  cbn [shaping_call] in H1.
  set (w1 := {| id_counter := S (id_counter w); namespaces := namespaces w;
                interfaces := <[self := mirrored (length (interfaces w)) (ns_id n) (if_id i) i]>
                                (interfaces w)
                              ++ [new_interface "ifb" (pretty (id_counter w)) (if_namespace i)];
                trace := trace w ++ shaping_stage (ns_id n) (if_id i) (pretty (id_counter w))
                         ++ [change_cmd (ns_id n) (if_id i) (SetMinBandwidth r1)];
                faults := drop 6 (faults w) |}) in *.
  pose proof (lookup_lt_Some _ _ _ Hi) as Hlt.
  assert (Hi1 : interfaces w1 !! self
                = Some (mirrored (length (interfaces w)) (ns_id n) (if_id i) i)).
  { subst w1. cbn [interfaces]. norm_store. reflexivity. }
  assert (Hs1 : succeed 1 (faults w1)).
  { subst w1. cbn [faults]. eapply succeed_drop_1; [exact Hs | lia]. }
  destruct (shaping_call_mirrored w1 self _ n (SetMinBandwidth r2) Hi1 Hn eq_refl)
    as [[H2 _] | (fs & Hfs & _)].
  2: { unfold succeed in Hs1. rewrite Hfs in Hs1. discriminate Hs1. }
  cbn [shaping_call] in H2.
  eexists. exists (mirrored (length (interfaces w)) (ns_id n) (if_id i) i).
  split; [unfold bind; rewrite H1; exact H2|].
  split; [exact Hi1|].
  split; [unfold mirrored; cbn [class_list]; rewrite Hcl; reflexivity|].
  assert (Hnodes : dev_nodes (ns_id n) (if_id i)
            (pipeline (set_trace
               (trace w1 ++ [change_cmd (ns_id n) (if_id (mirrored (length (interfaces w))
                                            (ns_id n) (if_id i) i)) (SetMinBandwidth r2)])
               (set_faults (drop 1 (faults w1)) w1)))
          = canonical_stage (ns_id n) (if_id i) (pretty (id_counter w)) [("rate", r2)] []).
  { unfold pipeline. subst w1. cbn [trace set_trace set_faults mirrored if_id].
    rewrite dev_nodes_rate_change, run_trace_app.
    rewrite (dev_nodes_first_call _ _ _ (SetMinBandwidth r1)) by exact Hp.
    cbn [class_params_after netem_params_after]. apply canonical_change_rate. }
  split; [unfold dev_classes; rewrite Hnodes; reflexivity|].
  split; [exact Hnodes|].
  subst w1. cbn [trace set_trace set_faults mirrored if_id].
  rewrite <- !app_assoc. reflexivity.
Qed.

Lemma mirrors_created_first (tr : list Cmd) (ns dev ifb_id : string) (c : ShapingCall) :
  length (List.filter is_setup_ifb (tr ++ shaping_stage ns dev ifb_id ++ [change_cmd ns dev c]))
  = length (List.filter is_setup_ifb tr) + 1.
Proof.
  rewrite app_assoc, mirrors_created_change, List.filter_app, length_app. reflexivity.
Qed.

Lemma canonical_shape (ns dev ifb_id : string) (cp np : kwargs) :
  map tn_shape (canonical_stage ns dev ifb_id cp np)
  = map tn_shape (canonical_stage ns dev ifb_id [] []).
Proof. reflexivity. Qed.

(** C6: whichever shaping call comes first on an unshaped interface,
    [set_delay] or [set_min_bandwidth], it returns having created one
    mirror, the same object store and the same stage on the device: htb
    discipline [1:] at the root, class [1:1], netem discipline [11:] and the
    redirect filter.  Every shaping call after it, accepted by the engine
    or not, keeps that mirror and that stage: no object and no mirror is
    added, and the nodes on the device stay these four. *)
Theorem first_shaping_call_builds_stage_once (w : World) (self : if_ref) (i : Interface)
    (n : Namespace) (first : ShapingCall) (rest : list ShapingCall) :
  interfaces w !! self = Some i ->
  namespaces w !! if_namespace i = Some n ->
  if_mirred_to_ifb i = false ->
  dev_nodes (ns_id n) (if_id i) (pipeline w) = [] ->
  succeed 6 (faults w) ->
  exists w1,
    shaping_call self first w = (Ok tt, w1)
    /\ interfaces w1 =
         <[self := mirrored (length (interfaces w)) (ns_id n) (if_id i) i]> (interfaces w)
         ++ [new_interface "ifb" (pretty (id_counter w)) (if_namespace i)]
    /\ mirrors_created w1 = mirrors_created w + 1
    /\ trace w1 =
         trace w ++ shaping_stage (ns_id n) (if_id i) (pretty (id_counter w))
         ++ [change_cmd (ns_id n) (if_id i) first]
    /\ dev_nodes (ns_id n) (if_id i) (pipeline w1) =
         canonical_stage (ns_id n) (if_id i) (pretty (id_counter w))
           (class_params_after first) (netem_params_after first)
    /\ let w2 := shaping_calls self rest w1 in
       interfaces w2 = interfaces w1
       /\ mirrors_created w2 = mirrors_created w + 1
       /\ map tn_shape (dev_nodes (ns_id n) (if_id i) (pipeline w2)) =
            map tn_shape (canonical_stage (ns_id n) (if_id i) (pretty (id_counter w)) [] []).
Proof.
  intros Hi Hn Hflag Hp Hs.
  pose proof (shaping_call_first w self i n first Hi Hn Hflag Hs) as H1.
  pose proof (lookup_lt_Some _ _ _ Hi) as Hlt.
  eexists. split; [exact H1|].
  split; [reflexivity|].
  assert (Hm : length (List.filter is_setup_ifb
             (trace w ++ shaping_stage (ns_id n) (if_id i) (pretty (id_counter w))
              ++ [change_cmd (ns_id n) (if_id i) first]))
           = mirrors_created w + 1) by apply mirrors_created_first.
  split; [exact Hm|].
  split; [reflexivity|].
  assert (Hnodes : dev_nodes (ns_id n) (if_id i)
            (run_trace [] (trace w ++ shaping_stage (ns_id n) (if_id i) (pretty (id_counter w))
                           ++ [change_cmd (ns_id n) (if_id i) first]))
          = canonical_stage (ns_id n) (if_id i) (pretty (id_counter w))
              (class_params_after first) (netem_params_after first)).
  { rewrite run_trace_app. apply dev_nodes_first_call. exact Hp. }
  split; [exact Hnodes|].
  match goal with |- let w2 := shaping_calls self rest ?x in _ => set (w1 := x) end.
  assert (Hi1 : interfaces w1 !! self
                = Some (mirrored (length (interfaces w)) (ns_id n) (if_id i) i)).
  { subst w1. cbn [interfaces]. norm_store. reflexivity. }
  destruct (shaping_calls_stable rest self _ n w1 Hi1 Hn eq_refl)
    as (Hifs & _ & _ & Hmc & Hsh).
  cbv zeta. split; [exact Hifs|]. split; [rewrite Hmc; exact Hm|].
  rewrite Hsh. subst w1. unfold pipeline. cbn [trace]. rewrite Hnodes.
  apply canonical_shape.
Qed.

(** ** Failure during the transition *)

(** C3, at a concrete input: with the engine refusing the first command of
    the transition, the shaping call raises and the flag of the interface
    is set all the same. *)
Lemma failed_transition_sets_flag :
  let w := set_faults [true] two_links_world in
  (if_mirred_to_ifb <$> interfaces w !! 0) = Some false
  /\ (set_min_bandwidth 0 "10mbit" w).1 = Raise ExternalCommandFailed
  /\ (if_mirred_to_ifb <$> interfaces (set_min_bandwidth 0 "10mbit" w).2 !! 0) = Some true.
Proof. vm_compute. repeat split; reflexivity. Qed.

(** C3 as amended: when the engine refuses one of the five commands of the
    transition, the first shaping call raises the failure to its caller
    without retrying; the commands before the refused one stay in effect
    and the flag, set before the first of them, stays set.  A later shaping
    call therefore does not go through the transition again: it issues its
    change command only. *)
Theorem failed_transition_keeps_flag (w : World) (self : if_ref) (i : Interface)
    (n : Namespace) (first : ShapingCall) (k : nat) (fs : list bool) :
  interfaces w !! self = Some i ->
  namespaces w !! if_namespace i = Some n ->
  if_mirred_to_ifb i = false ->
  k < 5 ->
  faults w = replicate k false ++ true :: fs ->
  exists w' i',
    shaping_call self first w = (Raise ExternalCommandFailed, w')
    /\ interfaces w' !! self = Some i'
    /\ if_mirred_to_ifb i' = true
    /\ trace w' = trace w ++ take k (shaping_stage (ns_id n) (if_id i) (pretty (id_counter w)))
    /\ faults w' = fs
    /\ forall later : ShapingCall, succeed 1 fs ->
         exists w'', shaping_call self later w' = (Ok tt, w'')
           /\ interfaces w'' = interfaces w'
           /\ trace w'' = trace w' ++ [change_cmd (ns_id n) (if_id i) later].
Proof.
  intros Hi Hn Hflag Hk Hf. pose proof (lookup_lt_Some _ _ _ Hi) as Hlt.
  destruct w as [c nss ifs tr fs0]. cbn in Hi, Hn, Hf, Hlt. subst fs0.
  assert (Hlater : forall w' i', interfaces w' !! self = Some i' ->
            namespaces w' = nss -> faults w' = fs ->
            if_mirred_to_ifb i' = true -> if_namespace i' = if_namespace i ->
            if_id i' = if_id i ->
            forall later : ShapingCall, succeed 1 fs ->
            exists w'', shaping_call self later w' = (Ok tt, w'')
              /\ interfaces w'' = interfaces w'
              /\ trace w'' = trace w' ++ [change_cmd (ns_id n) (if_id i) later]).
  { intros w' i' Hi' Hnss Hfs Hfl Hns Hid later Hs.
    assert (Hn' : namespaces w' !! if_namespace i' = Some n) by (rewrite Hnss, Hns; exact Hn).
    destruct (shaping_call_mirrored w' self i' n later Hi' Hn' Hfl)
      as [[H2 _] | (fs' & Hfs' & _)].
    - eexists. split; [exact H2|]. rewrite Hid. destruct w'. split; reflexivity.
    - subst fs. unfold succeed in Hs. rewrite Hfs' in Hs. discriminate Hs. }
  destruct k as [|[|[|[|[|k]]]]]; try lia; cbn [replicate app take shaping_stage];
    destruct first; unfold shaping_call; do 2 eexists;
    (split; [exec_literal; reflexivity|]);
    (split; [cbn [interfaces]; norm_store; reflexivity|]);
    (split; [reflexivity|]);
    (split; [cbn [trace]; rewrite <- ?app_assoc, ?app_nil_r; reflexivity|]);
    (split; [reflexivity|]);
    (eapply Hlater; [cbn [interfaces]; norm_store; reflexivity | reflexivity ..]).
Qed.

(** ** Pairing *)

(** C4, at a concrete input: interface 0 of the sample topology is paired
    with interface 1; pairing it with interface 2 returns normally and
    replaces its pair. *)
Lemma set_pair_on_paired_interface :
  (if_pair <$> interfaces two_links_world !! 0) = Some (Some 1)
  /\ (_set_pair 0 2 two_links_world).1 = Ok tt
  /\ (if_pair <$> interfaces (_set_pair 0 2 two_links_world).2 !! 0) = Some (Some 2).
Proof. vm_compute. repeat split; reflexivity. Qed.

(** C4 as amended: pairing an interface A with B never fails, whether or
    not either already has a pair: it makes B the pair of A, replacing the
    pair A had, and leaves every other interface, B included, and the rest
    of the store as they were. *)
Theorem set_pair_overwrites (w : World) (A B : if_ref) (a : Interface) :
  interfaces w !! A = Some a ->
  exists w',
    _set_pair A B w = (Ok tt, w')
    /\ interfaces w' !! A = Some (with_pair (Some B) a)
    /\ (forall r, r <> A -> interfaces w' !! r = interfaces w !! r)
    /\ namespaces w' = namespaces w
    /\ trace w' = trace w.
Proof.
  intros Ha. pose proof (lookup_lt_Some _ _ _ Ha) as Hlt.
  destruct w as [c nss ifs tr fs]. cbn in Ha, Hlt.
  eexists. split; [exec; reflexivity|].
  split; [cbn [interfaces]; norm_store; reflexivity|].
  split; [|split; reflexivity].
  intros r Hr. cbn [interfaces]. apply list_lookup_insert_ne. congruence.
Qed.

(** ** Links and their generated names *)

Lemma count_connections_pure (l : list if_ref) (ns2 : ns_ref) (acc : nat) (w : World) :
  count_connections l ns2 acc w = (count_links (interfaces w) l ns2 acc, w).
Proof.
  revert acc. induction l as [|r l IH]; intros acc; [reflexivity|].
  cbn [count_connections count_links].
  unfold get_pair, get_namespace, read_if, ret, raise. unfold bind. cbv beta.
  destruct (interfaces w !! r) as [i|]; [|reflexivity]. cbv beta iota.
  destruct (if_pair i) as [q|]; [|reflexivity]. cbv beta iota.
  destruct (interfaces w !! q) as [j|]; [|reflexivity]. cbv beta iota.
  apply IH.
Qed.

Lemma count_links_ext (ifs ext : list Interface) (l : list if_ref) (ns2 : ns_ref)
    (acc k : nat) :
  count_links ifs l ns2 acc = Ok k -> count_links (ifs ++ ext) l ns2 acc = Ok k.
Proof.
  revert acc. induction l as [|r l IH]; intros acc; [trivial|].
  cbn [count_links].
  destruct (ifs !! r) as [i|] eqn:Hr; [|discriminate].
  rewrite (lookup_app_l_Some _ _ _ _ Hr).
  destruct (if_pair i) as [q|]; [|discriminate].
  destruct (ifs !! q) as [j|] eqn:Hq; [|discriminate].
  rewrite (lookup_app_l_Some _ _ _ _ Hq). apply IH.
Qed.

Lemma count_links_snoc (ifs : list Interface) (l : list if_ref) (r : if_ref) (ns2 : ns_ref)
    (acc k : nat) :
  count_links ifs l ns2 acc = Ok k ->
  count_links ifs (l ++ [r]) ns2 acc = count_links ifs [r] ns2 k.
Proof.
  revert acc. induction l as [|r' l IH]; intros acc.
  - cbn [count_links app]. intros [= ->]. reflexivity.
  - cbn [count_links app].
    destruct (ifs !! r') as [i|]; [|discriminate].
    destruct (if_pair i) as [q|]; [|discriminate].
    destruct (ifs !! q) as [j|]; [|discriminate].
    apply IH.
Qed.

Lemma number_of_connections_unfold (w : World) (ns1 ns2 : ns_ref) (n1 n2 : Namespace) :
  namespaces w !! ns1 = Some n1 ->
  namespaces w !! ns2 = Some n2 ->
  number_of_connections ns1 ns2 w =
    (if (length (interface_list n2) <? length (interface_list n1))%nat
     then count_links (interfaces w) (interface_list n2) ns1 0
     else count_links (interfaces w) (interface_list n1) ns2 0, w).
Proof.
  intros Hn1 Hn2. unfold number_of_connections, read_ns. unfold bind.
  rewrite Hn1. cbv beta iota. rewrite Hn2. cbv beta iota.
  destruct (length (interface_list n2) <? length (interface_list n1))%nat.
  - rewrite Hn2. apply count_connections_pure.
  - rewrite Hn1. apply count_connections_pure.
Qed.

(** Counting once more after a link was added between [ns1] and [ns2]:
    the new end [r], whose peer lies in [ns2], is counted on top of the
    links counted before. *)
Lemma count_links_new_link (ifs : list Interface) (l : list if_ref) (ns2 : ns_ref) (k : nat)
    (a b : Interface) (r q : if_ref) :
  count_links ifs l ns2 0 = Ok k ->
  (ifs ++ [a; b]) !! r = Some a \/ (ifs ++ [a; b]) !! r = Some b ->
  forall x y, (ifs ++ [a; b]) !! r = Some x -> if_pair x = Some q ->
  (ifs ++ [a; b]) !! q = Some y -> if_namespace y = ns2 ->
  count_links (ifs ++ [a; b]) (l ++ [r]) ns2 0 = Ok (k + 1).
Proof.
  intros Hk _ x y Hx Hp Hy Hns.
  rewrite (count_links_snoc _ _ _ _ _ k) by (apply count_links_ext; exact Hk).
  cbn [count_links]. rewrite Hx, Hp, Hy, Hns, Nat.eqb_refl. reflexivity.
Qed.




(** ** What every call keeps *)

Lemma engine_stores (c : Cmd) (w : World) :
  namespaces (engine c w).2 = namespaces w /\ interfaces (engine c w).2 = interfaces w.
Proof. unfold engine. destruct (faults w) as [|[] fs]; split; reflexivity. Qed.

(** The getters return without touching the store. *)
Lemma getters_pure (w : World) (ns ns' : ns_ref) (r : if_ref) :
  (is_default ns w).2 = w
  /\ (Namespace_get_id ns w).2 = w
  /\ (get_name ns w).2 = w
  /\ (get_pair r w).2 = w
  /\ (Interface_get_id r w).2 = w
  /\ (get_namespace r w).2 = w
  /\ (get_address r w).2 = w
  /\ (number_of_connections ns ns' w).2 = w.
Proof.
  unfold is_default, Namespace_get_id, get_name, get_pair, Interface_get_id,
    get_namespace, get_address, number_of_connections, read_ns, read_if, ret, raise.
  unfold bind.
  repeat split;
    try (destruct (namespaces w !! ns) as [n|]; [|reflexivity]);
    try (destruct (interfaces w !! r) as [i|]; [|reflexivity]);
    try reflexivity.
  - destruct (String.eqb (ns_id n) "default"); reflexivity.
  - destruct (ns_name n); reflexivity.
  - destruct (namespaces w !! ns') as [n'|]; [|reflexivity].
    destruct (length (interface_list n') <? length (interface_list n))%nat.
    + destruct (namespaces w !! ns') as [m|]; [|reflexivity].
      rewrite count_connections_pure. reflexivity.
    + destruct (namespaces w !! ns) as [m|]; [|reflexivity].
      rewrite count_connections_pure. reflexivity.
Qed.

Section Frame.

Variable Address_init : string -> option Address.
Variable Inv : list Namespace -> list Interface -> Prop.
Variables pair_ok ifb_ok : if_ref -> Prop.

Hypothesis inv_alloc_ns : forall nss ifs n, Inv nss ifs -> Inv (nss ++ [n]) ifs.
Hypothesis inv_update_ns : forall nss ifs r n l,
  nss !! r = Some n -> Inv nss ifs -> Inv (<[r := with_interface_list l n]> nss) ifs.
Hypothesis inv_alloc_if : forall nss ifs name id ns,
  Inv nss ifs -> Inv nss (ifs ++ [new_interface name id ns]).
Hypothesis inv_update_if : forall nss ifs r i f,
  keeps_links f -> ifs !! r = Some i -> Inv nss ifs -> Inv nss (<[r := f i]> ifs).
Hypothesis inv_set_pair : forall nss ifs r i b,
  pair_ok r -> ifs !! r = Some i -> Inv nss ifs ->
  Inv nss (<[r := with_pair (Some b) i]> ifs).
Hypothesis inv_set_ifb : forall nss ifs r i b,
  ifb_ok r -> ifs !! r = Some i -> Inv nss ifs ->
  Inv nss (<[r := with_ifb (Some b) i]> ifs).

Lemma sat_ret {A} (a : A) : Sat Inv (ret a).
Proof. intros w H. exact H. Qed.

Lemma sat_raise {A} (e : exn) : Sat Inv (@raise A e).
Proof. intros w H. exact H. Qed.

Lemma sat_bind {A B} (m : M A) (k : A -> M B) :
  Sat Inv m -> (forall a, Sat Inv (k a)) -> Sat Inv (bind m k).
Proof.
  intros Hm Hk w H. unfold bind. specialize (Hm w H).
  destruct (m w) as [[a|e] w']; cbn in Hm |- *; [apply Hk; exact Hm | exact Hm].
Qed.

Lemma sat_read_ns (r : ns_ref) : Sat Inv (read_ns r).
Proof. intros w H. unfold read_ns. destruct (namespaces w !! r); exact H. Qed.

Lemma sat_read_if (r : if_ref) : Sat Inv (read_if r).
Proof. intros w H. unfold read_if. destruct (interfaces w !! r); exact H. Qed.

Lemma sat_engine (c : Cmd) : Sat Inv (engine c).
Proof. intros w H. destruct (engine_stores c w) as [-> ->]. exact H. Qed.

Lemma sat_get_id : Sat Inv ID_GEN_get_id.
Proof. intros w H. exact H. Qed.

Lemma sat_alloc_ns (n : Namespace) : Sat Inv (alloc_ns n).
Proof. intros w H. apply inv_alloc_ns. exact H. Qed.

Lemma sat_append_interface (r : ns_ref) (x : if_ref) :
  Sat Inv (update_ns r (fun n => with_interface_list (interface_list n ++ [x]) n)).
Proof.
  intros w H. unfold update_ns. destruct (namespaces w !! r) as [n|] eqn:Hr; [|exact H].
  apply inv_update_ns; assumption.
Qed.

Lemma sat_alloc_if (name id : string) (ns : ns_ref) :
  Sat Inv (alloc_if (new_interface name id ns)).
Proof. intros w H. apply inv_alloc_if. exact H. Qed.

Lemma sat_update_if (r : if_ref) (f : Interface -> Interface) :
  keeps_links f -> Sat Inv (update_if r f).
Proof.
  intros Hf w H. unfold update_if. destruct (interfaces w !! r) as [i|] eqn:Hr; [|exact H].
  apply inv_update_if; assumption.
Qed.

Lemma sat_set_pair (r b : if_ref) : pair_ok r -> Sat Inv (_set_pair r b).
Proof.
  intros Hok w H. unfold _set_pair, update_if.
  destruct (interfaces w !! r) as [i|] eqn:Hr; [|exact H].
  apply inv_set_pair; assumption.
Qed.

Lemma sat_set_ifb (r b : if_ref) : ifb_ok r -> Sat Inv (update_if r (with_ifb (Some b))).
Proof.
  intros Hok w H. unfold update_if.
  destruct (interfaces w !! r) as [i|] eqn:Hr; [|exact H].
  apply inv_set_ifb; assumption.
Qed.

Ltac keeps := intros ?; split; reflexivity.

Ltac sat_go :=
  repeat first
    [ apply sat_ret | apply sat_raise | apply sat_read_ns | apply sat_read_if
    | apply sat_engine | apply sat_get_id | apply sat_alloc_ns | apply sat_alloc_if
    | apply sat_append_interface
    | apply sat_update_if; keeps
    | match goal with H : context [Sat] |- Sat _ _ => apply H end
    | apply sat_bind; [|intros ?]
    | progress cbn [py_is_False]
    | match goal with
      | |- Sat _ (if ?b then _ else _) => destruct b
      | |- Sat _ (match ?o with Some _ => _ | None => _ end) => destruct o
      | |- Sat _ (let '(_, _) := ?p in _) => destruct p
      end ].

Lemma sat_Namespace_init (name : string) : Sat Inv (Namespace_init name).
Proof. unfold Namespace_init. sat_go. Qed.

Lemma sat_Namespace_get_id (r : ns_ref) : Sat Inv (Namespace_get_id r).
Proof. unfold Namespace_get_id. sat_go. Qed.

Lemma sat_is_default (r : ns_ref) : Sat Inv (is_default r).
Proof. unfold is_default. pose proof sat_Namespace_get_id. sat_go. Qed.

Lemma sat_Router_init (name : string) : Sat Inv (Router_init name).
Proof.
  unfold Router_init. pose proof sat_Namespace_init. pose proof sat_Namespace_get_id.
  sat_go.
Qed.

Lemma sat_Interface_init (name : string) (ns : ns_ref) : Sat Inv (Interface_init name ns).
Proof. unfold Interface_init. sat_go. Qed.

Lemma sat_Interface_get_id (r : if_ref) : Sat Inv (Interface_get_id r).
Proof. unfold Interface_get_id. sat_go. Qed.

Lemma sat_get_namespace (r : if_ref) : Sat Inv (get_namespace r).
Proof. unfold get_namespace. sat_go. Qed.

Lemma sat_get_pair (r : if_ref) : Sat Inv (get_pair r).
Proof. unfold get_pair. sat_go. Qed.

Lemma sat_set_namespace (r : if_ref) (ns : ns_ref) : Sat Inv (_set_namespace r ns).
Proof. unfold _set_namespace. sat_go. Qed.

Lemma sat_add_interface (self : ns_ref) (i : if_ref) : Sat Inv (add_interface self i).
Proof.
  unfold add_interface. pose proof sat_set_namespace. pose proof sat_Namespace_get_id.
  pose proof sat_Interface_get_id. sat_go.
Qed.

Lemma sat_to_address (a : AddrArg) : Sat Inv (to_address Address_init a).
Proof. unfold to_address. destruct a; [destruct (Address_init s)|]; sat_go. Qed.

Lemma sat_add_route (self : ns_ref) (d h : AddrArg) (via : if_ref) :
  Sat Inv (add_route Address_init self d h via).
Proof.
  unfold add_route. pose proof sat_to_address. pose proof sat_Interface_get_id. sat_go.
Qed.

Lemma sat_set_address (self : if_ref) (a : AddrArg) :
  Sat Inv (set_address Address_init self a).
Proof.
  unfold set_address. pose proof sat_to_address. pose proof sat_get_namespace.
  pose proof sat_is_default. pose proof sat_Namespace_get_id.
  pose proof sat_Interface_get_id. sat_go.
Qed.

Lemma sat_set_mode (self : if_ref) (mode : string) : Sat Inv (set_mode self mode).
Proof.
  unfold set_mode. pose proof sat_get_namespace. pose proof sat_is_default.
  pose proof sat_Namespace_get_id. pose proof sat_Interface_get_id. sat_go.
Qed.

Lemma sat_add_qdisc (self : if_ref) (q p h : string) (kw : kwargs) :
  Sat Inv (add_qdisc self q p h kw).
Proof.
  unfold add_qdisc, Qdisc_init. pose proof sat_get_namespace.
  pose proof sat_Namespace_get_id. pose proof sat_Interface_get_id. sat_go.
Qed.

Lemma sat_add_class (self : if_ref) (q p c : string) (kw : kwargs) :
  Sat Inv (add_class self q p c kw).
Proof.
  unfold add_class, Class_init. pose proof sat_get_namespace.
  pose proof sat_Namespace_get_id. pose proof sat_Interface_get_id. sat_go.
Qed.

Lemma sat_add_filter (self : if_ref) (pr ft fl proto p h : string) (kw : kwargs) :
  Sat Inv (add_filter self pr ft fl proto p h kw).
Proof.
  unfold add_filter, Filter_init. pose proof sat_get_namespace.
  pose proof sat_Namespace_get_id. pose proof sat_Interface_get_id. sat_go.
Qed.

Lemma sat_create_ifb (self : if_ref) : ifb_ok self -> Sat Inv (_create_ifb self).
Proof.
  intros Hok. unfold _create_ifb. pose proof sat_get_namespace.
  pose proof sat_Interface_init. pose proof (fun b => sat_set_ifb self b Hok).
  pose proof sat_Namespace_get_id. pose proof sat_Interface_get_id. sat_go.
Qed.

Lemma sat_mirred_to_ifb (self : if_ref) : ifb_ok self -> Sat Inv (_mirred_to_ifb self).
Proof.
  intros Hok. unfold _mirred_to_ifb, ifb_of. pose proof (sat_create_ifb self Hok).
  pose proof sat_add_qdisc. pose proof sat_add_class. pose proof sat_get_namespace.
  pose proof sat_Namespace_get_id. pose proof sat_Interface_get_id. sat_go.
Qed.

Lemma sat_set_min_bandwidth (self : if_ref) (rate : string) :
  ifb_ok self -> Sat Inv (set_min_bandwidth self rate).
Proof.
  intros Hok. unfold set_min_bandwidth. pose proof (sat_mirred_to_ifb self Hok).
  pose proof sat_get_namespace. pose proof sat_Namespace_get_id.
  pose proof sat_Interface_get_id. sat_go.
Qed.

Lemma sat_set_delay (self : if_ref) (delay : string) :
  ifb_ok self -> Sat Inv (set_delay self delay).
Proof.
  intros Hok. unfold set_delay. pose proof (sat_mirred_to_ifb self Hok).
  pose proof sat_get_namespace. pose proof sat_Namespace_get_id.
  pose proof sat_Interface_get_id. sat_go.
Qed.

(** [set_qdisc] never enters [_mirred_to_ifb]: its test is on the method. *)
Lemma sat_set_qdisc (self : if_ref) (qdisc : string) : Sat Inv (set_qdisc self qdisc).
Proof. unfold set_qdisc. pose proof sat_add_qdisc. sat_go. Qed.

Lemma sat_count_connections (l : list if_ref) (ns2 : ns_ref) (acc : nat) :
  Sat Inv (count_connections l ns2 acc).
Proof.
  revert acc. induction l as [|r l IH]; intros acc; cbn [count_connections].
  - sat_go.
  - pose proof sat_get_pair. pose proof sat_get_namespace. sat_go.
Qed.

Lemma sat_number_of_connections (ns1 ns2 : ns_ref) : Sat Inv (number_of_connections ns1 ns2).
Proof. unfold number_of_connections. pose proof sat_count_connections. sat_go. Qed.

Lemma sat_Veth_init_pairs (ns1 ns2 : ns_ref) (a b : string) :
  (forall r, pair_ok r) -> Sat Inv (Veth_init ns1 ns2 a b).
Proof.
  intros Hok. unfold Veth_init. pose proof sat_Interface_init.
  pose proof (fun r b => sat_set_pair r b (Hok r)). pose proof sat_Interface_get_id.
  sat_go.
Qed.

Section WithVeth.

Hypothesis sat_Veth_init : forall ns1 ns2 a b, Sat Inv (Veth_init ns1 ns2 a b).

Lemma sat_connect (ns1 ns2 : ns_ref) (a b : string) : Sat Inv (connect ns1 ns2 a b).
Proof.
  unfold connect, get_interfaces. pose proof sat_number_of_connections.
  pose proof sat_Namespace_get_id. pose proof sat_add_interface.
  pose proof sat_set_mode. sat_go.
Qed.

Lemma sat_ignore {A} (m : M A) : Sat Inv m -> Sat Inv (ignore m).
Proof. intros H. unfold ignore. sat_go. Qed.

Lemma sat_exec_op (op : Op) :
  allowed pair_ok ifb_ok op -> Sat Inv (exec_op Address_init op).
Proof.
  destruct op; cbn [allowed exec_op]; intros Hok; try apply sat_ignore.
  - apply sat_Namespace_init.
  - apply sat_Namespace_init.
  - apply sat_Router_init.
  - apply sat_add_route.
  - apply sat_add_interface.
  - apply sat_Interface_init.
  - apply sat_set_pair; exact Hok.
  - apply sat_set_namespace.
  - apply sat_set_address.
  - apply sat_set_mode.
  - apply sat_add_qdisc.
  - apply sat_add_class.
  - apply sat_add_filter.
  - apply sat_create_ifb; exact Hok.
  - apply sat_mirred_to_ifb; exact Hok.
  - apply sat_set_min_bandwidth; exact Hok.
  - apply sat_set_delay; exact Hok.
  - apply sat_set_qdisc.
  - apply sat_Veth_init.
  - apply sat_connect.
Qed.

Lemma run_keeps (ops : list Op) (w : World) :
  Forall (allowed pair_ok ifb_ok) ops ->
  Inv (namespaces w) (interfaces w) ->
  Inv (namespaces (run Address_init ops w)) (interfaces (run Address_init ops w)).
Proof.
  revert w. induction ops as [|op ops IH]; intros w Hall H; [exact H|].
  apply Forall_cons in Hall as [Hop Hall]. cbn [run fold_left].
  apply IH; [exact Hall|]. apply sat_exec_op; assumption.
Qed.

End WithVeth.

End Frame.

(** ** Pairing along histories *)

Lemma Veth_init_store (ns1 ns2 : ns_ref) (a b : string) (w : World) :
  interfaces (Veth_init ns1 ns2 a b w).2 =
    interfaces w
    ++ [ with_pair (Some (S (length (interfaces w))))
           (new_interface a (pretty (id_counter w)) ns1);
         with_pair (Some (length (interfaces w)))
           (new_interface b (pretty (S (id_counter w))) ns2) ]
  /\ namespaces (Veth_init ns1 ns2 a b w).2 = namespaces w
  /\ forall v, (Veth_init ns1 ns2 a b w).1 = Ok v ->
       v = (length (interfaces w), S (length (interfaces w))).
Proof.
  destruct w as [c nss ifs tr fs]. exec. unfold engine. cbn [faults].
  destruct fs as [|[] fs]; cbn [fst snd interfaces namespaces set_trace set_faults];
    (split; [reflexivity|]); (split; [reflexivity|]); intros v [= <-]; reflexivity.
Qed.

Section PairsFrame.

Variable Address_init : string -> option Address.
Variable P : list (option if_ref) -> Prop.

Hypothesis P_alloc : forall ps, P ps -> P (ps ++ [None]).
Hypothesis P_veth : forall ps, P ps -> P (ps ++ [Some (S (length ps)); Some (length ps)]).

Lemma pairs_update (ifs : list Interface) (r : if_ref) (i : Interface)
  (f : Interface -> Interface) :
if_pair (f i) = if_pair i -> ifs !! r = Some i ->
if_pair <$> <[r := f i]> ifs = if_pair <$> ifs.
Proof.
intros Hf Hr. rewrite list_fmap_insert, Hf. apply list_insert_id.
rewrite list_lookup_fmap, Hr. reflexivity.
Qed.

Lemma sat_Veth_init_on_pairs (ns1 ns2 : ns_ref) (a b : string) :
Sat (on_pairs P) (Veth_init ns1 ns2 a b).
Proof.
intros w H. unfold on_pairs in *.
destruct (Veth_init_store ns1 ns2 a b w) as (-> & _ & _).
rewrite fmap_app. cbn [fmap list_fmap if_pair with_pair].
rewrite <- (length_fmap if_pair (interfaces w)). apply P_veth. exact H.
Qed.

Lemma not_set_pair_allowed (op : Op) :
is_set_pair op = false -> allowed (fun _ => False) (fun _ => True) op.
Proof. destruct op; cbn; intros H; try exact I; discriminate H. Qed.

Lemma on_pairs_frame :
(forall nss ifs n, on_pairs P nss ifs -> on_pairs P (nss ++ [n]) ifs)
/\ (forall nss ifs r n l, nss !! r = Some n -> on_pairs P nss ifs ->
      on_pairs P (<[r := with_interface_list l n]> nss) ifs)
/\ (forall nss ifs name id ns, on_pairs P nss ifs ->
      on_pairs P nss (ifs ++ [new_interface name id ns]))
/\ (forall nss ifs r i f, keeps_links f -> ifs !! r = Some i -> on_pairs P nss ifs ->
      on_pairs P nss (<[r := f i]> ifs))
/\ (forall nss ifs r i b, False -> ifs !! r = Some i -> on_pairs P nss ifs ->
      on_pairs P nss (<[r := with_pair (Some b) i]> ifs))
/\ (forall nss ifs r i b, True -> ifs !! r = Some i -> on_pairs P nss ifs ->
      on_pairs P nss (<[r := with_ifb (Some b) i]> ifs)).
Proof.
unfold on_pairs. repeat apply conj.
- intros nss ifs n H. exact H.
- intros nss ifs r n l _ H. exact H.
- intros nss ifs name id ns H. rewrite fmap_app. apply P_alloc. exact H.
- intros nss ifs r i f Hf Hr H. rewrite pairs_update; [exact H | apply Hf | exact Hr].
- intros nss ifs r i b [].
- intros nss ifs r i b _ Hr H. rewrite pairs_update; [exact H | reflexivity | exact Hr].
Qed.

Lemma sat_op_on_pairs (op : Op) :
is_set_pair op = false -> Sat (on_pairs P) (exec_op Address_init op).
Proof.
intros Hop. destruct on_pairs_frame as (H1 & H2 & H3 & H4 & H5 & H6).
apply (sat_exec_op Address_init (on_pairs P) (fun _ => False) (fun _ => True)
         H1 H2 H3 H4 H5 H6 sat_Veth_init_on_pairs).
apply not_set_pair_allowed. exact Hop.
Qed.

Lemma run_on_pairs (ops : list Op) (w : World) :
Forall (fun op => is_set_pair op = false) ops ->
P (if_pair <$> interfaces w) ->
P (if_pair <$> interfaces (run Address_init ops w)).
Proof.
intros Hops H. destruct on_pairs_frame as (H1 & H2 & H3 & H4 & H5 & H6).
apply (run_keeps Address_init (on_pairs P) (fun _ => False) (fun _ => True)
         H1 H2 H3 H4 H5 H6 sat_Veth_init_on_pairs).
- eapply Forall_impl; [exact Hops|]. intros op. apply not_set_pair_allowed.
- exact H.
Qed.

End PairsFrame.

Lemma pair_of_fmap (ifs : list Interface) (r : if_ref) :
  pair_of ifs r = (if_pair <$> ifs) !! r.
Proof. unfold pair_of. symmetry. apply list_lookup_fmap. Qed.

Lemma pair_symmetric_pairs (ifs : list Interface) :
  pair_symmetric ifs <-> pairs_symmetric (if_pair <$> ifs).
Proof.
  unfold pair_symmetric, pairs_symmetric. split; intros H A B; specialize (H A B);
    rewrite !pair_of_fmap in *; exact H.
Qed.

Lemma pairs_symmetric_alloc (ps : list (option if_ref)) :
  pairs_symmetric ps -> pairs_symmetric (ps ++ [None]).
Proof.
  intros H A B HA. apply lookup_app_Some in HA as [HA | [Hle HA]].
  - apply lookup_app_l_Some. apply H. exact HA.
  - destruct (A - length ps) as [|k]; [discriminate HA|].
    cbn in HA. try rewrite lookup_nil in HA. discriminate HA.
Qed.

Lemma pairs_symmetric_veth (ps : list (option if_ref)) :
  pairs_symmetric ps ->
  pairs_symmetric (ps ++ [Some (S (length ps)); Some (length ps)]).
Proof.
  intros H A B HA. apply lookup_app_Some in HA as [HA | [Hle HA]].
  - apply lookup_app_l_Some. apply H. exact HA.
  - destruct (A - length ps) as [|[|k]] eqn:HAk; cbn in HA.
    + injection HA as <-. assert (A = length ps) as -> by lia. apply lookup_last2_1.
    + injection HA as <-. assert (A = S (length ps)) as -> by lia. apply lookup_last2_0.
    + try rewrite lookup_nil in HA. discriminate HA.
Qed.

Lemma pairs_linked_alloc (a b : if_ref) (ps : list (option if_ref)) :
  pairs_linked a b ps -> pairs_linked a b (ps ++ [None]).
Proof. intros [Ha Hb]. split; apply lookup_app_l_Some; assumption. Qed.

Lemma pairs_linked_veth (a b : if_ref) (ps : list (option if_ref)) :
  pairs_linked a b ps ->
  pairs_linked a b (ps ++ [Some (S (length ps)); Some (length ps)]).
Proof. intros [Ha Hb]. split; apply lookup_app_l_Some; assumption. Qed.

Lemma bind_Ok_inv {A B} (m : M A) (k : A -> M B) (w w' : World) (b : B) :
  bind m k w = (Ok b, w') -> exists a w1, m w = (Ok a, w1) /\ k a w1 = (Ok b, w').
Proof.
  unfold bind. destruct (m w) as [[a|e] w1]; [eauto | discriminate].
Qed.

Lemma step_returned (Address_init : string -> option Address) (op : Op) (w w' : World) :
  exec_op Address_init op w = (Ok tt, w') -> step Address_init w op = w'.
Proof. unfold step. intros ->. reflexivity. Qed.

(** A [connect] that returns leaves its two interfaces paired with each
    other, and amounts to [Veth] followed by four calls that no longer
    touch a pair. *)
Lemma connect_links (ns1 ns2 : ns_ref) (a b : string) (w w' : World) (int1 int2 : if_ref) :
  connect ns1 ns2 a b w = (Ok (int1, int2), w') ->
  pairs_linked int1 int2 (if_pair <$> interfaces w').
Proof.
  intros H. unfold connect in H.
  apply bind_Ok_inv in H as (names & w0 & _ & H).
  apply bind_Ok_inv in H as ([i1 i2] & wv & Hveth & H).
  cbn [get_interfaces] in H.
  destruct (Veth_init_store ns1 ns2 names.1 names.2 w0) as (Hifs & _ & Hv).
  rewrite Hveth in Hifs, Hv. cbn [fst snd] in Hifs, Hv.
  specialize (Hv _ eq_refl). injection Hv as -> ->.
  apply bind_Ok_inv in H as ([] & w1 & H1 & H).
  apply bind_Ok_inv in H as ([] & w2 & H2 & H).
  apply bind_Ok_inv in H as ([] & w3 & H3 & H).
  apply bind_Ok_inv in H as ([] & w4 & H4 & H).
  unfold ret in H. injection H as <- <- <-.
  assert (Hrun : w4 = run (fun _ => None)
            [OAddInterface ns1 (length (interfaces w0));
             OAddInterface ns2 (S (length (interfaces w0)));
             OSetMode (length (interfaces w0)) "UP";
             OSetMode (S (length (interfaces w0))) "UP"] wv).
  { cbn [run fold_left]. unfold step. cbn [exec_op].
    rewrite H1. cbn [snd]. rewrite H2. cbn [snd]. rewrite H3. cbn [snd].
    rewrite H4. reflexivity. }
  rewrite Hrun.
  apply (run_on_pairs _ (pairs_linked (length (interfaces w0)) (S (length (interfaces w0))))).
  - apply pairs_linked_alloc.
  - apply pairs_linked_veth.
  - repeat constructor.
  - rewrite Hifs, fmap_app. cbn [fmap list_fmap if_pair with_pair].
    rewrite <- (length_fmap if_pair (interfaces w0)).
    split; [apply lookup_last2_0 | apply lookup_last2_1].
Qed.

(** C5, at a concrete input: after two connects that returned, pairing is
    symmetric; one call of the pairing helper on interface 0 leaves
    interface 0 pointing at interface 2 and interface 2 pointing at
    interface 3. *)
Lemma set_pair_breaks_symmetry :
  exists w1 w2,
    connect 0 1 "" "" two_nodes_world = (Ok (0, 1), w1)
    /\ connect 0 1 "" "" w1 = (Ok (2, 3), w2)
    /\ pair_symmetric (interfaces w2)
    /\ let w3 := run any_address [OSetPair 0 2] w2 in
       pair_of (interfaces w3) 0 = Some (Some 2)
       /\ pair_of (interfaces w3) 2 = Some (Some 3)
       /\ ~ pair_symmetric (interfaces w3).
Proof.
  eexists. eexists.
  split; [vm_compute; reflexivity|].
  split; [vm_compute; reflexivity|].
  split.
  - intros A B. destruct A as [|[|[|[|A]]]]; vm_compute; intros [= <-]; reflexivity.
  - cbv zeta. split; [vm_compute; reflexivity|]. split; [vm_compute; reflexivity|].
    intros H. specialize (H 0 2 eq_refl). vm_compute in H. discriminate H.
Qed.

(** C5 as amended: after every [connect] that returns [(int1, int2)],
    [int1]'s pair is [int2] and [int2]'s pair is [int1]; this, and the
    symmetry of pairing over the whole store, is kept by every later call,
    returning or raising, other than a direct call of the one-sided helper
    [_set_pair]. *)
Theorem pair_symmetry_kept (Address_init : string -> option Address) (w w' : World)
    (ns1 ns2 : ns_ref) (a b : string) (int1 int2 : if_ref) (ops : list Op) :
  connect ns1 ns2 a b w = (Ok (int1, int2), w') ->
  Forall (fun op => is_set_pair op = false) ops ->
  let w'' := run Address_init ops w' in
  (pair_of (interfaces w') int1 = Some (Some int2)
   /\ pair_of (interfaces w') int2 = Some (Some int1))
  /\ (pair_of (interfaces w'') int1 = Some (Some int2)
      /\ pair_of (interfaces w'') int2 = Some (Some int1))
  /\ (pair_symmetric (interfaces w) ->
      pair_symmetric (interfaces w') /\ pair_symmetric (interfaces w'')).
Proof.
  intros Hc Hops w''. pose proof (connect_links _ _ _ _ _ _ _ _ Hc) as Hl.
  split; [rewrite !pair_of_fmap; exact Hl|].
  split.
  - rewrite !pair_of_fmap. subst w''.
    apply (run_on_pairs Address_init (pairs_linked int1 int2));
      [apply pairs_linked_alloc | apply pairs_linked_veth | exact Hops | exact Hl].
  - intros Hs. apply pair_symmetric_pairs in Hs.
    assert (Hw' : w' = run Address_init [OConnect ns1 ns2 a b] w).
    { cbn [run fold_left]. unfold step. cbn [exec_op]. unfold ignore, bind.
      rewrite Hc. reflexivity. }
    assert (Hs' : pairs_symmetric (if_pair <$> interfaces w')).
    { rewrite Hw'. apply (run_on_pairs Address_init pairs_symmetric);
        [apply pairs_symmetric_alloc | apply pairs_symmetric_veth | repeat constructor
        | exact Hs]. }
    split; apply pair_symmetric_pairs; [exact Hs'|].
    subst w''. apply (run_on_pairs Address_init pairs_symmetric);
      [apply pairs_symmetric_alloc | apply pairs_symmetric_veth | exact Hops | exact Hs'].
Qed.

(** ** Identifiers and names of namespaces *)

Lemma pretty_N_char_digit (x : N) : is_digit (pretty_N_char x) = true.
Proof. unfold pretty_N_char. repeat case_match; reflexivity. Qed.

Lemma pretty_N_go_digits (x : N) (s : string) :
  all_digits s = true -> all_digits (pretty_N_go x s) = true.
Proof.
  revert s. induction (N.lt_wf_0 x) as [x _ IH]; intros s Hs.
  destruct (decide (x = 0)%N) as [-> | Hx].
  - rewrite pretty_N_go_0. exact Hs.
  - rewrite pretty_N_go_step by lia. apply IH.
    + apply N.div_lt; lia.
    + cbn [all_digits]. rewrite pretty_N_char_digit, Hs. reflexivity.
Qed.

Lemma pretty_nat_digits (n : nat) : all_digits (pretty n) = true.
Proof.
  unfold pretty, pretty_nat, pretty, pretty_N. case_decide; [reflexivity|].
  apply pretty_N_go_digits. reflexivity.
Qed.

Lemma pretty_nat_not_default (n : nat) : pretty n <> "default".
Proof.
  intros H. pose proof (pretty_nat_digits n) as Hd. rewrite H in Hd. discriminate Hd.
Qed.

Section NoMirror.

Variable Address_init : string -> option Address.
Variable self : if_ref.

Lemma no_mirror_update (nss : list Namespace) (ifs : list Interface) (r : if_ref)
  (i : Interface) (f : Interface -> Interface) :
r <> self \/ if_ifb (f i) = if_ifb i ->
ifs !! r = Some i -> no_mirror self nss ifs -> no_mirror self nss (<[r := f i]> ifs).
Proof.
intros Hf Hr H j Hj. destruct (decide (r = self)) as [-> | Hne].
- rewrite list_lookup_insert_eq in Hj by (eapply lookup_lt_Some; exact Hr).
  injection Hj as <-. destruct Hf as [Hf | Hf]; [congruence|].
  rewrite Hf. apply H. exact Hr.
- rewrite list_lookup_insert_ne in Hj by exact Hne. apply H. exact Hj.
Qed.

Lemma no_mirror_alloc (nss : list Namespace) (ifs : list Interface) (name id : string)
  (ns : ns_ref) :
no_mirror self nss ifs -> no_mirror self nss (ifs ++ [new_interface name id ns]).
Proof.
intros H j Hj. apply lookup_app_Some in Hj as [Hj | [_ Hj]]; [apply H; exact Hj|].
destruct (self - length ifs) as [|k]; cbn in Hj; [|try rewrite lookup_nil in Hj; discriminate Hj].
injection Hj as <-. reflexivity.
Qed.

Lemma not_shaping_allowed (op : Op) :
shapes self op = false -> allowed (fun _ => True) (fun r => r <> self) op.
Proof.
destruct op; cbn; intros H; try exact I; apply Nat.eqb_neq; exact H.
Qed.

Lemma run_no_mirror (ops : list Op) (w : World) :
Forall (fun op => shapes self op = false) ops ->
no_mirror self (namespaces w) (interfaces w) ->
no_mirror self (namespaces (run Address_init ops w)) (interfaces (run Address_init ops w)).
Proof.
intros Hops H.
apply (run_keeps Address_init (no_mirror self) (fun _ => True) (fun r => r <> self)).
- intros nss ifs n H0. exact H0.
- intros nss ifs r n l _ H0. exact H0.
- intros nss ifs name id ns. apply no_mirror_alloc.
- intros nss ifs r i f Hf. apply no_mirror_update. right. apply Hf.
- intros nss ifs r i b _. apply no_mirror_update. right. reflexivity.
- intros nss ifs r i b Hne. apply no_mirror_update. left. exact Hne.
- intros ns1 ns2 a b.
  apply (sat_Veth_init_pairs (no_mirror self) (fun _ => True)).
  + intros nss ifs name id ns. apply no_mirror_alloc.
  + intros nss ifs r i b0 _. apply no_mirror_update. right. reflexivity.
  + intros r. exact I.
- eapply Forall_impl; [exact Hops|]. apply not_shaping_allowed.
- exact H.
Qed.

(** C9: on an interface on which no shaping call was made before (neither
  [set_min_bandwidth] nor [set_delay], nor the two helpers they go
  through), whatever else the history holds, [set_qdisc] raises
  AttributeError and changes nothing: its test compares the bound method
  with False, which never holds, so no mirror is created and the call
  goes on to the absent mirror, None. *)
Theorem set_qdisc_before_shaping (fs : list bool) (ops : list Op) (qdisc : string) :
Forall (fun op => shapes self op = false) ops ->
let w := run Address_init ops (initial_world fs) in
self < length (interfaces w) ->
py_is_False (PyBoundMethod "_mirred_to_ifb" self) = false
/\ (if_ifb <$> interfaces w !! self) = Some None
/\ set_qdisc self qdisc w = (Raise AttributeError, w).
Proof.
intros Hops w Hlt.
assert (H : no_mirror self (namespaces w) (interfaces w)).
{ apply run_no_mirror; [exact Hops|]. intros i Hi. discriminate Hi. }
apply lookup_lt_is_Some in Hlt as [i Hi]. specialize (H i Hi).
split; [reflexivity|]. split; [rewrite Hi; cbn; rewrite H; reflexivity|].
unfold set_qdisc, bind, read_if. rewrite Hi. cbn [py_is_False].
unfold ret. rewrite Hi, H. reflexivity.
Qed.

End NoMirror.

Section Named.

Variable Address_init : string -> option Address.

Lemma run_named (r : ns_ref) (name : option string) (id : string) (ops : list Op)
  (w : World) :
named r name id (namespaces w) (interfaces w) ->
named r name id (namespaces (run Address_init ops w)) (interfaces (run Address_init ops w)).
Proof.
intros H.
assert (Halloc : forall nss ifs n, named r name id nss ifs -> named r name id (nss ++ [n]) ifs).
{ intros nss ifs n (m & Hm & Hn & Hid). exists m. split; [|split; assumption].
  apply lookup_app_l_Some. exact Hm. }
assert (Hifs : forall nss ifs ifs', named r name id nss ifs -> named r name id nss ifs').
{ intros nss ifs ifs' H0. exact H0. }
apply (run_keeps Address_init (named r name id) (fun _ => True) (fun _ => True)).
- exact Halloc.
- intros nss ifs r' n l Hr' (m & Hm & Hn & Hid).
  destruct (decide (r' = r)) as [-> | Hne].
  + exists (with_interface_list l n).
    rewrite list_lookup_insert_eq by (eapply lookup_lt_Some; exact Hr').
    assert (m = n) as -> by congruence. split; [reflexivity|]. split; assumption.
  + exists m. rewrite list_lookup_insert_ne by exact Hne. split; [exact Hm|].
    split; assumption.
- intros nss ifs nm i ns. apply Hifs.
- intros nss ifs r' i f _ _. apply Hifs.
- intros nss ifs r' i b _ _. apply Hifs.
- intros nss ifs r' i b _ _. apply Hifs.
- intros ns1 ns2 a b.
  apply (sat_Veth_init_pairs (named r name id) (fun _ => True)).
  + intros nss ifs nm i ns. apply Hifs.
  + intros nss ifs r' i b0 _ _. apply Hifs.
  + intros r'. exact I.
- apply Forall_forall. intros op _. destruct op; exact I.
- exact H.
Qed.

Lemma named_get (r : ns_ref) (name : option string) (id : string) (w : World) :
named r name id (namespaces w) (interfaces w) ->
get_name r w = (match name with Some s => Ok s | None => Raise AttributeError end, w)
/\ Namespace_get_id r w = (Ok id, w).
Proof.
intros (n & Hn & Hname & Hid). unfold get_name, Namespace_get_id, bind, read_ns.
rewrite Hn, Hname, Hid. destruct name; split; reflexivity.
Qed.

(** C10: a Namespace made with the empty name has no name attribute, so
  [get_name] raises AttributeError, while [get_id] returns 'default' and
  no identifier was taken; a Namespace made with another name yields that
  name and the identifier [ID_GEN] handed out at its construction, which
  is not 'default' and differs from the identifier at every other state
  of the counter.  Both hold right after construction and after any
  later calls: nothing sets or changes the name or the identifier. *)
Theorem namespace_name_and_id (w : World) (name : string) (ops : list Op) :
(name = "" ->
   exists r w',
     Namespace_init name w = (Ok r, w')
     /\ id_counter w' = id_counter w
     /\ forall w'', w'' = w' \/ w'' = run Address_init ops w' ->
          get_name r w'' = (Raise AttributeError, w'')
          /\ Namespace_get_id r w'' = (Ok "default", w''))
/\ (name <> "" -> succeed 1 (faults w) ->
   exists r w',
     Namespace_init name w = (Ok r, w')
     /\ id_counter w' = S (id_counter w)
     /\ pretty (id_counter w) <> "default"
     /\ (forall k, k <> id_counter w -> pretty k <> pretty (id_counter w))
     /\ forall w'', w'' = w' \/ w'' = run Address_init ops w' ->
          get_name r w'' = (Ok name, w'')
          /\ Namespace_get_id r w'' = (Ok (pretty (id_counter w)), w'')).
Proof.
split.
- intros ->. destruct w as [c nss ifs tr fs]. do 2 eexists.
  split; [exec; reflexivity|]. split; [reflexivity|].
  match goal with |- context [run Address_init ops ?x] => set (w1 := x) end.
  assert (H : named (length nss) None "default" (namespaces w1) (interfaces w1)).
  { eexists. split; [apply list_lookup_middle; reflexivity|]. split; reflexivity. }
  intros w'' [-> | ->]; [|apply (run_named _ _ _ ops) in H]; apply (named_get _ _ _ _ H).
- intros Hname Hs. destruct w as [c nss ifs tr fs]. cbn in Hs.
  apply String.eqb_neq in Hname. do 2 eexists.
  split; [unfold Namespace_init; rewrite Hname; exec; reflexivity|].
  split; [reflexivity|]. split; [apply pretty_nat_not_default|].
  split; [intros k Hk Heq; apply Hk; apply (inj pretty); exact Heq|].
  match goal with |- context [run Address_init ops ?x] => set (w1 := x) end.
  assert (H : named (length nss) (Some name) (pretty c) (namespaces w1) (interfaces w1)).
  { eexists. split; [apply list_lookup_middle; reflexivity|]. split; reflexivity. }
  intros w'' [-> | ->]; [|apply (run_named _ _ _ ops) in H]; apply (named_get _ _ _ _ H).
Qed.

End Named.

(** * The rest of the module *)

(** ** Registering interfaces *)

(** X1: [add_interface] does not take the interface off the namespace that
    held it: after an interface is added to [A] and then to [B], it is in
    the interface list of both, its namespace is [B], and the engine was
    asked to move it twice. *)
Theorem add_interface_keeps_old_owner (w : World) (A B : ns_ref) (i : if_ref)
    (nA nB : Namespace) (x : Interface) :
  namespaces w !! A = Some nA ->
  namespaces w !! B = Some nB ->
  A <> B ->
  interfaces w !! i = Some x ->
  succeed 2 (faults w) ->
  exists w',
    (add_interface A i ;; add_interface B i) w = (Ok tt, w')
    /\ namespaces w' !! A = Some (with_interface_list (interface_list nA ++ [i]) nA)
    /\ namespaces w' !! B = Some (with_interface_list (interface_list nB ++ [i]) nB)
    /\ interfaces w' !! i = Some (with_namespace B x)
    /\ trace w' = trace w ++ [AddIntToNs (ns_id nA) (if_id x); AddIntToNs (ns_id nB) (if_id x)].
Proof.
  intros HA HB Hne Hi Hs.
  pose proof (lookup_lt_Some _ _ _ HA) as HltA.
  pose proof (lookup_lt_Some _ _ _ HB) as HltB.
  pose proof (lookup_lt_Some _ _ _ Hi) as Hlti.
  destruct w as [c nss ifs tr fs]. cbn in HA, HB, Hi, Hs, HltA, HltB, Hlti.
  eexists. split; [exec; reflexivity|].
  cbn [namespaces interfaces trace]. norm_store.
  split; [reflexivity|]. split; [reflexivity|]. split; [reflexivity|].
  rewrite <- ?app_assoc. reflexivity.
Qed.

(** X2: when the engine refuses [add_int_to_ns], [add_interface] raises
    with the bookkeeping already done: the interface is in the list of the
    namespace and points at it, though no command was carried out. *)
Theorem add_interface_failure_keeps_changes (w : World) (A : ns_ref) (i : if_ref)
    (nA : Namespace) (x : Interface) (fs : list bool) :
  namespaces w !! A = Some nA ->
  interfaces w !! i = Some x ->
  faults w = true :: fs ->
  exists w',
    add_interface A i w = (Raise ExternalCommandFailed, w')
    /\ namespaces w' !! A = Some (with_interface_list (interface_list nA ++ [i]) nA)
    /\ interfaces w' !! i = Some (with_namespace A x)
    /\ trace w' = trace w.
Proof.
  intros HA Hi Hf.
  pose proof (lookup_lt_Some _ _ _ HA) as HltA.
  pose proof (lookup_lt_Some _ _ _ Hi) as Hlti.
  destruct w as [c nss ifs tr fs0]. cbn in HA, Hi, Hf, HltA, Hlti. subst fs0.
  eexists. split; [exec_literal; reflexivity|].
  cbn [namespaces interfaces trace]. norm_store. repeat split; reflexivity.
Qed.

(** ** Counting links *)

(** X3: [number_of_connections] gives the same result for (ns1, ns2) and
    (ns2, ns1) when the two interface lists differ in length: either way
    the shorter list is the one walked. *)
Theorem number_of_connections_unordered (w : World) (ns1 ns2 : ns_ref) (n1 n2 : Namespace) :
  namespaces w !! ns1 = Some n1 ->
  namespaces w !! ns2 = Some n2 ->
  length (interface_list n1) <> length (interface_list n2) ->
  number_of_connections ns1 ns2 w = number_of_connections ns2 ns1 w.
Proof.
  intros H1 H2 Hlen.
  rewrite (number_of_connections_unfold w ns1 ns2 n1 n2 H1 H2).
  rewrite (number_of_connections_unfold w ns2 ns1 n2 n1 H2 H1).
  destruct (length (interface_list n2) <? length (interface_list n1))%nat eqn:E1;
    destruct (length (interface_list n1) <? length (interface_list n2))%nat eqn:E2;
    try reflexivity.
  - apply Nat.ltb_lt in E1, E2. lia.
  - apply Nat.ltb_ge in E1, E2. lia.
Qed.

Lemma count_links_unpaired (ifs : list Interface) (l : list if_ref) (ns2 : ns_ref)
    (acc : nat) :
  Forall (resolves ifs) l -> Exists (unpaired ifs) l ->
  count_links ifs l ns2 acc = Raise AttributeError.
Proof.
  intros Hall Hex. revert acc. induction Hall as [|r l Hr Hall IH]; intros acc.
  - inversion Hex.
  - cbn [count_links]. destruct Hr as (i & Hi & Hp). rewrite Hi.
    destruct (if_pair i) as [q|] eqn:Hq; [|reflexivity].
    destruct Hp as [j Hj]. rewrite Hj. apply IH.
    apply Exists_cons in Hex as [(i' & Hi' & Hp') | Hex]; [congruence | exact Hex].
Qed.

(** X4: an interface that was registered without ever being paired, in
    the list [number_of_connections] walks, makes the count raise
    AttributeError (the pair is None), and [connect] without names raises
    the same before it creates anything. *)
Theorem connect_unpaired_interface (w : World) (ns1 ns2 : ns_ref) (n1 n2 : Namespace) :
  namespaces w !! ns1 = Some n1 ->
  namespaces w !! ns2 = Some n2 ->
  Forall (resolves (interfaces w)) (walked n1 n2) ->
  Exists (unpaired (interfaces w)) (walked n1 n2) ->
  number_of_connections ns1 ns2 w = (Raise AttributeError, w)
  /\ connect ns1 ns2 "" "" w = (Raise AttributeError, w).
Proof.
  intros H1 H2 Hall Hex.
  assert (Hn : number_of_connections ns1 ns2 w = (Raise AttributeError, w)).
  { rewrite (number_of_connections_unfold w ns1 ns2 n1 n2 H1 H2). unfold walked in *.
    destruct (length (interface_list n2) <? length (interface_list n1))%nat;
      rewrite count_links_unpaired by assumption; reflexivity. }
  split; [exact Hn|]. unfold connect. cbn [String.eqb andb].
  unfold bind at 1. unfold bind at 1. rewrite Hn. reflexivity.
Qed.

(** ** Links out of the ordinary *)

(** X5: [connect] of a namespace with itself, no names given: the two
    interfaces get the same generated name, both land in the one interface
    list, and the count of links of the namespace with itself goes up by
    two. *)
Theorem connect_same_namespace (w : World) (ns : ns_ref) (n : Namespace) (k : nat) :
  namespaces w !! ns = Some n ->
  ns_id n <> "default" ->
  number_of_connections ns ns w = (Ok k, w) ->
  succeed 5 (faults w) ->
  let L := length (interfaces w) in
  exists w1,
    connect ns ns "" "" w = (Ok (L, S L), w1)
    /\ (if_name <$> interfaces w1 !! L) = Some (link_name (ns_id n) (ns_id n) k)
    /\ (if_name <$> interfaces w1 !! S L) = Some (link_name (ns_id n) (ns_id n) k)
    /\ namespaces w1 !! ns
       = Some (with_interface_list (interface_list n ++ [L; S L]) n)
    /\ number_of_connections ns ns w1 = (Ok (k + 2), w1).
Proof.
  intros Hn Hd Hk Hs L. apply eqb_default_false in Hd.
  pose proof (lookup_lt_Some _ _ _ Hn) as Hlt.
  pose proof Hk as Hk'.
  rewrite (number_of_connections_unfold w ns ns n n Hn Hn) in Hk'.
  rewrite Nat.ltb_irrefl in Hk'. injection Hk' as Hk'.
  subst L. destruct w as [c nss ifs tr fs]. cbn in Hn, Hs, Hlt. cbn [interfaces] in Hk'.
  eexists. split; [exec; reflexivity|].
  cbn [interfaces namespaces]. norm_store.
  split; [reflexivity|]. split; [reflexivity|].
  cbn [with_interface_list interface_list ns_name ns_id]. norm_store.
  split; [reflexivity|].
  erewrite number_of_connections_unfold; cycle 1.
  { cbn [namespaces]. norm_store. reflexivity. }
  { cbn [namespaces]. norm_store. reflexivity. }
  rewrite Nat.ltb_irrefl. cbn [interfaces interface_list with_interface_list]. f_equal.
  change (interface_list n ++ [length ifs; S (length ifs)])
    with (interface_list n ++ [length ifs] ++ [S (length ifs)]).
  rewrite app_assoc.
  rewrite (count_links_snoc _ _ _ _ _ (k + 1)).
  - cbn [count_links]. norm_store.
    cbn [if_pair if_namespace with_namespace with_pair new_interface].
    norm_store. cbn [if_pair if_namespace with_namespace with_pair new_interface].
    rewrite Nat.eqb_refl. f_equal. lia.
  - rewrite (count_links_snoc _ _ _ _ _ k) by (apply count_links_ext; exact Hk').
    cbn [count_links]. norm_store.
    cbn [if_pair if_namespace with_namespace with_pair new_interface].
    norm_store. cbn [if_pair if_namespace with_namespace with_pair new_interface].
    rewrite Nat.eqb_refl. reflexivity.
Qed.

(** X6: when at least one name is given, [connect] does not count the
    links and uses the two names as they are, an empty one included; the
    engine sees the veth pair, the two moves and the two interfaces set
    'up', in this order. *)
Theorem connect_given_names (w : World) (ns1 ns2 : ns_ref) (n1 n2 : Namespace)
    (a b : string) :
  namespaces w !! ns1 = Some n1 ->
  namespaces w !! ns2 = Some n2 ->
  ns1 <> ns2 ->
  ns_id n1 <> "default" ->
  ns_id n2 <> "default" ->
  a <> "" \/ b <> "" ->
  succeed 5 (faults w) ->
  let L := length (interfaces w) in
  exists w1,
    connect ns1 ns2 a b w = (Ok (L, S L), w1)
    /\ interfaces w1 =
         interfaces w
         ++ [ veth_end a (pretty (id_counter w)) ns1 (S L);
              veth_end b (pretty (S (id_counter w))) ns2 L ]
    /\ trace w1 =
         trace w
         ++ [ CreateVeth (pretty (id_counter w)) (pretty (S (id_counter w)));
              AddIntToNs (ns_id n1) (pretty (id_counter w));
              AddIntToNs (ns_id n2) (pretty (S (id_counter w)));
              SetInterfaceMode (ns_id n1) (pretty (id_counter w)) "up";
              SetInterfaceMode (ns_id n2) (pretty (S (id_counter w))) "up" ].
Proof.
  intros Hn1 Hn2 Hne Hd1 Hd2 Hab Hs L. subst L.
  apply eqb_default_false in Hd1, Hd2.
  pose proof (lookup_lt_Some _ _ _ Hn1) as Hlt1.
  pose proof (lookup_lt_Some _ _ _ Hn2) as Hlt2.
  assert (Hcond : String.eqb a "" && String.eqb b "" = false).
  { destruct Hab as [H | H]; apply String.eqb_neq in H; rewrite H;
      [reflexivity | apply andb_false_r]. }
  destruct w as [c nss ifs tr fs]. cbn in Hn1, Hn2, Hs, Hlt1, Hlt2.
  eexists. split; [unfold connect; rewrite Hcond; exec; reflexivity|].
  cbn [interfaces trace]. split; [reflexivity|].
  rewrite <- ?app_assoc. reflexivity.
Qed.

(** X7: [connect] with the default namespace as first end raises
    NotImplementedError only at [set_mode]: by then the veth pair exists,
    both interfaces are registered with their namespaces (the first moved
    to 'default'), and the second interface is never brought up. *)
Theorem connect_default_namespace (w : World) (ns1 ns2 : ns_ref) (n1 n2 : Namespace)
    (a b : string) :
  namespaces w !! ns1 = Some n1 ->
  namespaces w !! ns2 = Some n2 ->
  ns1 <> ns2 ->
  ns_id n1 = "default" ->
  a <> "" \/ b <> "" ->
  succeed 3 (faults w) ->
  let L := length (interfaces w) in
  exists w1,
    connect ns1 ns2 a b w = (Raise NotImplementedError, w1)
    /\ interfaces w1 =
         interfaces w
         ++ [ veth_end a (pretty (id_counter w)) ns1 (S L);
              veth_end b (pretty (S (id_counter w))) ns2 L ]
    /\ namespaces w1 !! ns1 = Some (with_interface_list (interface_list n1 ++ [L]) n1)
    /\ namespaces w1 !! ns2 = Some (with_interface_list (interface_list n2 ++ [S L]) n2)
    /\ trace w1 =
         trace w
         ++ [ CreateVeth (pretty (id_counter w)) (pretty (S (id_counter w)));
              AddIntToNs "default" (pretty (id_counter w));
              AddIntToNs (ns_id n2) (pretty (S (id_counter w))) ].
Proof.
  intros Hn1 Hn2 Hne Hd1 Hab Hs L. subst L.
  pose proof (eqb_default_true _ Hd1) as Hd1'.
  pose proof (lookup_lt_Some _ _ _ Hn1) as Hlt1.
  pose proof (lookup_lt_Some _ _ _ Hn2) as Hlt2.
  assert (Hcond : String.eqb a "" && String.eqb b "" = false).
  { destruct Hab as [H | H]; apply String.eqb_neq in H; rewrite H;
      [reflexivity | apply andb_false_r]. }
  destruct w as [c nss ifs tr fs]. cbn in Hn1, Hn2, Hs, Hlt1, Hlt2.
  eexists. split; [unfold connect; rewrite Hcond; exec; reflexivity|].
  cbn [interfaces namespaces trace]. norm_store.
  split; [reflexivity|]. split; [reflexivity|]. split; [reflexivity|].
  rewrite Hd1, <- ?app_assoc. reflexivity.
Qed.

(** ** Links that fail half-way *)

(** X8: when the engine fails on bringing the first interface up,
    [connect] raises, and the link is counted all the same: the veth pair
    and both registrations are done, so [number_of_connections] is one
    more than before. *)
Theorem connect_fails_bringing_up (w : World) (ns1 ns2 : ns_ref) (n1 n2 : Namespace)
    (k : nat) (fs : list bool) :
  namespaces w !! ns1 = Some n1 ->
  namespaces w !! ns2 = Some n2 ->
  ns1 <> ns2 ->
  ns_id n1 <> "default" ->
  number_of_connections ns1 ns2 w = (Ok k, w) ->
  faults w = false :: false :: false :: true :: fs ->
  exists w1,
    connect ns1 ns2 "" "" w = (Raise ExternalCommandFailed, w1)
    /\ trace w1 =
         trace w
         ++ [ CreateVeth (pretty (id_counter w)) (pretty (S (id_counter w)));
              AddIntToNs (ns_id n1) (pretty (id_counter w));
              AddIntToNs (ns_id n2) (pretty (S (id_counter w))) ]
    /\ number_of_connections ns1 ns2 w1 = (Ok (k + 1), w1).
Proof.
  intros Hn1 Hn2 Hne Hd1 Hk Hf.
  apply eqb_default_false in Hd1.
  pose proof (lookup_lt_Some _ _ _ Hn1) as Hlt1.
  pose proof (lookup_lt_Some _ _ _ Hn2) as Hlt2.
  pose proof Hk as Hk'.
  rewrite (number_of_connections_unfold w ns1 ns2 n1 n2 Hn1 Hn2) in Hk'.
  injection Hk' as Hk'.
  destruct w as [c nss ifs tr fs0]. cbn in Hn1, Hn2, Hf, Hlt1, Hlt2. subst fs0.
  cbn [interfaces] in Hk'.
  eexists. split; [exec_literal; reflexivity|].
  cbn [trace]. split; [rewrite <- ?app_assoc; reflexivity|].
  clear Hk. rename Hk' into Hk.
  erewrite number_of_connections_unfold; cycle 1.
  { cbn [namespaces]. norm_store. reflexivity. }
  { cbn [namespaces]. norm_store. reflexivity. }
  cbn [interfaces interface_list with_interface_list]. rewrite !length_snoc.
  change (S (length (interface_list n2)) <? S (length (interface_list n1)))%nat
    with (length (interface_list n2) <? length (interface_list n1))%nat.
  destruct (length (interface_list n2) <? length (interface_list n1))%nat.
  - f_equal.
    eapply count_links_new_link; [exact Hk | right; apply lookup_last2_1 | ..].
    + apply lookup_last2_1.
    + reflexivity.
    + apply lookup_last2_0.
    + reflexivity.
  - f_equal.
    eapply count_links_new_link; [exact Hk | left; apply lookup_last2_0 | ..].
    + apply lookup_last2_0.
    + reflexivity.
    + apply lookup_last2_1.
    + reflexivity.
Qed.

(** X9: when the engine fails on creating the veth pair, [connect]
    raises with the namespaces untouched and the count of links as before;
    the two interface objects, paired with each other, and the two
    identifiers they took are left behind. *)
Theorem connect_fails_creating_veth (w : World) (ns1 ns2 : ns_ref) (k : nat)
    (fs : list bool) :
  number_of_connections ns1 ns2 w = (Ok k, w) ->
  faults w = true :: fs ->
  let L := length (interfaces w) in
  exists w1,
    connect ns1 ns2 "" "" w = (Raise ExternalCommandFailed, w1)
    /\ namespaces w1 = namespaces w
    /\ length (interfaces w1) = S (S L)
    /\ pair_of (interfaces w1) L = Some (Some (S L))
    /\ pair_of (interfaces w1) (S L) = Some (Some L)
    /\ id_counter w1 = S (S (id_counter w))
    /\ trace w1 = trace w
    /\ number_of_connections ns1 ns2 w1 = (Ok k, w1).
Proof.
  intros Hk Hf L. subst L.
  pose proof Hk as Hk0. unfold number_of_connections, bind, read_ns in Hk0.
  destruct (namespaces w !! ns1) as [n1|] eqn:H1; [|discriminate Hk0].
  destruct (namespaces w !! ns2) as [n2|] eqn:H2; [|discriminate Hk0].
  clear Hk0. pose proof Hk as Hk'.
  rewrite (number_of_connections_unfold w ns1 ns2 n1 n2 H1 H2) in Hk'.
  injection Hk' as Hk'.
  destruct w as [c nss ifs tr fs0]. cbn in H1, H2, Hf. subst fs0. cbn [interfaces] in Hk'.
  eexists. split; [exec_literal; reflexivity|].
  cbn [interfaces namespaces trace id_counter]. split; [reflexivity|].
  split; [rewrite length_app; cbn [length]; lia|].
  unfold pair_of. norm_store. do 4 (split; [reflexivity|]).
  match goal with |- number_of_connections _ _ ?x = _ =>
    rewrite (number_of_connections_unfold x ns1 ns2 n1 n2 H1 H2) end.
  cbn [interfaces]. f_equal.
  destruct (length (interface_list n2) <? length (interface_list n1))%nat;
    apply count_links_ext; exact Hk'.
Qed.

(** X10: [Veth] on its own pairs two new interfaces and creates the veth
    pair, and registers them with no namespace: the interface lists and
    the count of links between any two namespaces are as before. *)
Theorem Veth_not_registered (w : World) (ns1 ns2 : ns_ref) (a b : string)
    (nsA nsB : ns_ref) (k : nat) :
  succeed 1 (faults w) ->
  number_of_connections nsA nsB w = (Ok k, w) ->
  let L := length (interfaces w) in
  exists w',
    Veth_init ns1 ns2 a b w = (Ok (L, S L), w')
    /\ namespaces w' = namespaces w
    /\ pair_of (interfaces w') L = Some (Some (S L))
    /\ pair_of (interfaces w') (S L) = Some (Some L)
    /\ trace w' = trace w ++ [CreateVeth (pretty (id_counter w)) (pretty (S (id_counter w)))]
    /\ number_of_connections nsA nsB w' = (Ok k, w').
Proof.
  intros Hs Hk L. subst L.
  pose proof Hk as Hk0. unfold number_of_connections, bind, read_ns in Hk0.
  destruct (namespaces w !! nsA) as [nA|] eqn:HA; [|discriminate Hk0].
  destruct (namespaces w !! nsB) as [nB|] eqn:HB; [|discriminate Hk0].
  clear Hk0. rewrite (number_of_connections_unfold w nsA nsB nA nB HA HB) in Hk.
  injection Hk as Hk.
  destruct w as [c nss ifs tr fs]. cbn in Hs, HA, HB. cbn [interfaces] in Hk.
  eexists. split; [exec; reflexivity|].
  cbn [interfaces namespaces trace]. split; [reflexivity|].
  unfold pair_of. norm_store. split; [reflexivity|]. split; [reflexivity|].
  split; [reflexivity|].
  match goal with |- number_of_connections _ _ ?x = _ =>
    rewrite (number_of_connections_unfold x nsA nsB nA nB HA HB) end.
  cbn [interfaces]. f_equal.
  destruct (length (interface_list nB) <? length (interface_list nA))%nat;
    apply count_links_ext; exact Hk.
Qed.

(** ** Addresses and routes *)

Section Addresses.

Variable Address_init : string -> option Address.

(** X11: a text the Address constructor rejects makes [set_address] and
    [add_route] raise its error before anything else is looked at: the
    namespace guard of [set_address] is not reached and the store is
    unchanged, for either address of [add_route]. *)
Theorem rejected_address_first (w : World) (self : if_ref) (ns : ns_ref) (s : string)
    (other : AddrArg) (via : if_ref) :
  Address_init s = None ->
  set_address Address_init self (AStr s) w = (Raise AddressError, w)
  /\ add_route Address_init ns (AStr s) other via w = (Raise AddressError, w)
  /\ (is_Some (address_of Address_init other) ->
      add_route Address_init ns other (AStr s) via w = (Raise AddressError, w)).
Proof.
  intros Hs. unfold set_address, add_route, to_address, bind, raise.
  rewrite Hs. split; [reflexivity|]. split; [reflexivity|].
  intros [a Ha]. destruct other as [s'|a']; cbn in Ha.
  - rewrite Ha. reflexivity.
  - reflexivity.
Qed.

(** X12: [add_route] has no guard: on any namespace, the default one
    included, and with any interface, of this namespace or not, it issues
    the route with both addresses stripped of their subnet and changes no
    object. *)
Theorem add_route_unchecked (w : World) (self : ns_ref) (n : Namespace)
    (dest hop : AddrArg) (d h : Address) (via : if_ref) (v : Interface) :
  namespaces w !! self = Some n ->
  interfaces w !! via = Some v ->
  address_of Address_init dest = Some d ->
  address_of Address_init hop = Some h ->
  succeed 1 (faults w) ->
  exists w',
    add_route Address_init self dest hop via w = (Ok tt, w')
    /\ namespaces w' = namespaces w
    /\ interfaces w' = interfaces w
    /\ trace w' = trace w ++ [AddRoute (ns_id n) (get_addr d true) (get_addr h true) (if_id v)].
Proof.
  intros Hn Hv Hd Hh Hs.
  assert (Hto : forall x y w', address_of Address_init x = Some y ->
                               to_address Address_init x w' = (Ok y, w')).
  { intros x y w' Hx. destruct x as [s|a]; cbn in Hx |- *.
    - rewrite Hx. reflexivity.
    - injection Hx as ->. reflexivity. }
  destruct w as [c nss ifs tr fs]. cbn in Hn, Hv, Hs.
  eexists. split.
  - unfold add_route. unfold bind at 1. rewrite (Hto _ _ _ Hd).
    unfold bind at 1. rewrite (Hto _ _ _ Hh). exec. reflexivity.
  - repeat split; reflexivity.
Qed.

Lemma set_address_stored (w : World) (self : if_ref) (i : Interface) (n : Namespace)
    (address : AddrArg) (a : Address) :
  interfaces w !! self = Some i ->
  namespaces w !! if_namespace i = Some n ->
  ns_id n <> "default" ->
  address_of Address_init address = Some a ->
  succeed 1 (faults w) ->
  set_address Address_init self address w =
    (Ok tt,
     {| id_counter := id_counter w;
        namespaces := namespaces w;
        interfaces := <[self := with_address (Some a) i]> (interfaces w);
        trace := trace w ++ [AssignIp (ns_id n) (if_id i) (get_addr a false)];
        faults := drop 1 (faults w) |}).
Proof.
  intros Hi Hn Hd Ha Hs. apply eqb_default_false in Hd.
  assert (Hto : forall w', to_address Address_init address w' = (Ok a, w')).
  { intros w'. destruct address as [s|a']; cbn in Ha |- *.
    - rewrite Ha. reflexivity.
    - injection Ha as ->. reflexivity. }
  destruct w as [c nss ifs tr fs]. cbn in Hi, Hn, Hs |- *.
  unfold set_address, bind at 1. rewrite Hto. exec. reflexivity.
Qed.

(** X13: a second [set_address] replaces the address recorded on the
    interface, which [get_address] then returns, and the engine was asked
    to assign both: the first is never withdrawn. *)
Theorem set_address_twice (w : World) (self : if_ref) (i : Interface) (n : Namespace)
    (first second : AddrArg) (a1 a2 : Address) :
  interfaces w !! self = Some i ->
  namespaces w !! if_namespace i = Some n ->
  ns_id n <> "default" ->
  address_of Address_init first = Some a1 ->
  address_of Address_init second = Some a2 ->
  succeed 2 (faults w) ->
  exists w',
    (set_address Address_init self first ;; set_address Address_init self second ;;
     get_address self) w = (Ok (Some a2), w')
    /\ interfaces w' = <[self := with_address (Some a2) i]> (interfaces w)
    /\ trace w' =
         trace w ++ [ AssignIp (ns_id n) (if_id i) (get_addr a1 false);
                      AssignIp (ns_id n) (if_id i) (get_addr a2 false) ].
Proof.
  intros Hi Hn Hd H1 H2 Hs.
  pose proof (lookup_lt_Some _ _ _ Hi) as Hlt.
  assert (Hs1 : succeed 1 (faults w)) by (eapply succeed_weaken; [exact Hs | lia]).
  assert (Hs2 : succeed 1 (drop 1 (faults w))) by (eapply succeed_drop_1; [exact Hs | lia]).
  unfold bind. rewrite (set_address_stored w self i n first a1 Hi Hn Hd H1 Hs1).
  erewrite (set_address_stored _ self (with_address (Some a1) i) n second a2);
    [ | cbn [interfaces]; apply list_lookup_insert_eq; exact Hlt
      | exact Hn | exact Hd | exact H2 | exact Hs2 ].
  unfold get_address, bind, read_if, ret. cbn [interfaces].
  rewrite list_insert_insert_eq, list_lookup_insert_eq by exact Hlt.
  eexists. split; [reflexivity|]. cbn [interfaces trace with_address if_id].
  rewrite <- app_assoc. split; reflexivity.
Qed.

End Addresses.

(** ** Low-level pipeline calls *)

(** X14: on an interface that has a mirror, [set_qdisc] ignores its
    argument: it adds a 'codel' discipline at the root of the mirror,
    recorded in the mirror's qdisc list, makes no new mirror and changes
    no other object. *)
Theorem set_qdisc_installs_codel_on_mirror (w : World) (self b : if_ref) (i bi : Interface)
    (nb : Namespace) (qdisc : string) :
  interfaces w !! self = Some i ->
  if_ifb i = Some b ->
  interfaces w !! b = Some bi ->
  namespaces w !! if_namespace bi = Some nb ->
  succeed 1 (faults w) ->
  exists w',
    set_qdisc self qdisc w = (Ok tt, w')
    /\ interfaces w' =
         <[b := with_qdisc_list
                  (qdisc_list bi
                   ++ [ {| q_namespace_id := ns_id nb; q_dev_id := if_id bi;
                           q_qdisc := "codel"; q_parent := "root"; q_handle := "" |} ])
                  bi]> (interfaces w)
    /\ trace w' = trace w ++ [AddQdisc (ns_id nb) (if_id bi) "codel" "root" "" []].
Proof.
  intros Hi Hb Hbi Hnb Hs.
  destruct w as [c nss ifs tr fs]. cbn in Hi, Hbi, Hnb, Hs.
  eexists. split.
  - exec. rewrite Hb. exec. reflexivity.
  - split; reflexivity.
Qed.

(** X15: [add_qdisc] and [add_class] do not look at what is installed:
    called twice with the same parent and handle they record two equal
    objects and issue the command twice, and neither touches the filter
    list. *)
Theorem add_qdisc_add_class_same_handle (w : World) (self : if_ref) (i : Interface)
    (n : Namespace) (qdisc parent handle : string) (kw : kwargs) :
  interfaces w !! self = Some i ->
  namespaces w !! if_namespace i = Some n ->
  succeed 4 (faults w) ->
  let q := {| q_namespace_id := ns_id n; q_dev_id := if_id i; q_qdisc := qdisc;
              q_parent := parent; q_handle := handle |} in
  let c := {| c_namespace_id := ns_id n; c_dev_id := if_id i; c_qdisc := qdisc;
              c_parent := parent; c_classid := handle |} in
  exists w',
    (add_qdisc self qdisc parent handle kw ;; add_qdisc self qdisc parent handle kw ;;
     add_class self qdisc parent handle kw ;; add_class self qdisc parent handle kw) w
      = (Ok c, w')
    /\ (qdisc_list <$> interfaces w' !! self) = Some (qdisc_list i ++ [q; q])
    /\ (class_list <$> interfaces w' !! self) = Some (class_list i ++ [c; c])
    /\ (filter_list <$> interfaces w' !! self) = Some (filter_list i)
    /\ trace w' =
         trace w
         ++ [ AddQdisc (ns_id n) (if_id i) qdisc parent handle kw;
              AddQdisc (ns_id n) (if_id i) qdisc parent handle kw;
              AddClass (ns_id n) (if_id i) qdisc parent handle kw;
              AddClass (ns_id n) (if_id i) qdisc parent handle kw ].
Proof.
  intros Hi Hn Hs q c. subst q c. pose proof (lookup_lt_Some _ _ _ Hi) as Hlt.
  destruct w as [k nss ifs tr fs]. cbn in Hi, Hn, Hs, Hlt.
  eexists. split; [exec; reflexivity|].
  cbn [interfaces trace]. norm_store.
  cbn [fmap option_fmap option_map qdisc_list class_list filter_list
       with_qdisc_list with_class_list].
  rewrite <- ?app_assoc. repeat split; reflexivity.
Qed.

(** ** Routers *)

(** X16: [Router] enables forwarding in the namespace it has just made;
    with an empty name that namespace is 'default', so forwarding is
    enabled there and no namespace is created nor identifier taken. *)
Theorem Router_init_forwarding (w : World) (router_name : string) :
  succeed 2 (faults w) ->
  exists w',
    Router_init router_name w = (Ok (length (namespaces w)), w')
    /\ if String.eqb router_name "" then
         trace w' = trace w ++ [EnIpForwarding "default"]
         /\ id_counter w' = id_counter w
         /\ namespaces w' =
              namespaces w ++ [{| ns_name := None; ns_id := "default"; interface_list := [] |}]
       else
         trace w' = trace w ++ [CreateNs (pretty (id_counter w));
                                EnIpForwarding (pretty (id_counter w))]
         /\ id_counter w' = S (id_counter w)
         /\ namespaces w' =
              namespaces w ++ [{| ns_name := Some router_name; ns_id := pretty (id_counter w);
                                  interface_list := [] |}].
Proof.
  intros Hs. destruct w as [c nss ifs tr fs]. cbn in Hs.
  destruct (String.eqb router_name "") eqn:E.
  - eexists. split.
    + unfold Router_init, Namespace_init. rewrite E. exec. reflexivity.
    + repeat split; reflexivity.
  - eexists. split.
    + unfold Router_init, Namespace_init. rewrite E. exec. reflexivity.
    + cbn [trace id_counter namespaces]. rewrite <- ?app_assoc. repeat split; reflexivity.
Qed.

(** X17: when the engine refuses to enable forwarding, [Router] raises
    after the namespace was created: the identifier is taken and the
    create command stays carried out. *)
Theorem Router_init_fails_after_create (w : World) (router_name : string) (fs : list bool) :
  router_name <> "" ->
  faults w = false :: true :: fs ->
  exists w',
    Router_init router_name w = (Raise ExternalCommandFailed, w')
    /\ trace w' = trace w ++ [CreateNs (pretty (id_counter w))]
    /\ id_counter w' = S (id_counter w).
Proof.
  intros Hname Hf. apply String.eqb_neq in Hname.
  destruct w as [c nss ifs tr fs0]. cbn in Hf. subst fs0.
  eexists. split.
  - unfold Router_init, Namespace_init. rewrite Hname. exec_literal. reflexivity.
  - split; reflexivity.
Qed.

(** ** Shaping, links and order *)

Lemma count_links_agree (ifs ifs' : list Interface) (l : list if_ref) (ns2 : ns_ref)
    (acc k : nat) :
  (forall r i, ifs !! r = Some i ->
     exists i', ifs' !! r = Some i' /\ if_pair i' = if_pair i
                /\ if_namespace i' = if_namespace i) ->
  count_links ifs l ns2 acc = Ok k -> count_links ifs' l ns2 acc = Ok k.
Proof.
  intros Hag. revert acc. induction l as [|r l IH]; intros acc; [trivial|].
  cbn [count_links].
  destruct (ifs !! r) as [i|] eqn:Hr; [|discriminate].
  destruct (Hag _ _ Hr) as (i' & -> & -> & _).
  destruct (if_pair i) as [q|]; [|discriminate].
  destruct (ifs !! q) as [j|] eqn:Hq; [|discriminate].
  destruct (Hag _ _ Hq) as (j' & -> & _ & ->). apply IH.
Qed.

(** X18: a shaping call, [set_delay] or [set_min_bandwidth], leaves every
    interface list and the count of links between any two namespaces as
    they were, the mirror it may create being registered nowhere. *)
Theorem shaping_keeps_link_count (w : World) (self : if_ref) (i : Interface)
    (n : Namespace) (c : ShapingCall) (ns1 ns2 : ns_ref) (k : nat) :
  interfaces w !! self = Some i ->
  namespaces w !! if_namespace i = Some n ->
  if_mirred_to_ifb i = true \/ succeed 6 (faults w) ->
  number_of_connections ns1 ns2 w = (Ok k, w) ->
  let w' := (shaping_call self c w).2 in
  namespaces w' = namespaces w
  /\ number_of_connections ns1 ns2 w' = (Ok k, w').
Proof.
  intros Hi Hn Hcase Hk w'.
  assert (Hst : namespaces w' = namespaces w
                /\ forall r x, interfaces w !! r = Some x ->
                     exists x', interfaces w' !! r = Some x' /\ if_pair x' = if_pair x
                                /\ if_namespace x' = if_namespace x).
  { subst w'. destruct (if_mirred_to_ifb i) eqn:Hflag.
    - destruct (shaping_call_mirrored w self i n c Hi Hn Hflag) as [[-> _] | (fs & _ & ->)];
        destruct w; (split; [reflexivity|]); intros r x Hx; exists x; repeat split; exact Hx.
    - destruct Hcase as [Hcase | Hs]; [discriminate Hcase|].
      rewrite (shaping_call_first w self i n c Hi Hn Hflag Hs). cbn [snd namespaces interfaces].
      split; [reflexivity|]. intros r x Hx.
      pose proof (lookup_lt_Some _ _ _ Hx) as Hlt.
      rewrite lookup_app_l by (rewrite length_insert; exact Hlt).
      destruct (decide (r = self)) as [-> | Hne].
      + rewrite list_lookup_insert_eq by exact Hlt. eexists. split; [reflexivity|].
        assert (x = i) as -> by congruence. split; reflexivity.
      + rewrite list_lookup_insert_ne by congruence. exists x. repeat split; exact Hx. }
  destruct Hst as [Hnss Hag]. split; [exact Hnss|].
  pose proof Hk as Hk0. unfold number_of_connections, bind, read_ns in Hk0.
  destruct (namespaces w !! ns1) as [n1|] eqn:H1; [|discriminate Hk0].
  destruct (namespaces w !! ns2) as [n2|] eqn:H2; [|discriminate Hk0].
  clear Hk0.
  rewrite (number_of_connections_unfold w ns1 ns2 n1 n2 H1 H2) in Hk.
  injection Hk as Hk.
  rewrite (number_of_connections_unfold w' ns1 ns2 n1 n2) by (rewrite Hnss; assumption).
  f_equal.
  destruct (length (interface_list n2) <? length (interface_list n1))%nat;
    eapply count_links_agree; eauto.
Qed.

Lemma shaping_call_twice (w : World) (self : if_ref) (i : Interface) (n : Namespace)
    (c1 c2 : ShapingCall) :
  interfaces w !! self = Some i ->
  namespaces w !! if_namespace i = Some n ->
  if_mirred_to_ifb i = false ->
  succeed 7 (faults w) ->
  (shaping_call self c1 ;; shaping_call self c2) w =
    (Ok tt,
     {| id_counter := S (id_counter w);
        namespaces := namespaces w;
        interfaces :=
          <[self := mirrored (length (interfaces w)) (ns_id n) (if_id i) i]> (interfaces w)
          ++ [new_interface "ifb" (pretty (id_counter w)) (if_namespace i)];
        trace := (trace w ++ shaping_stage (ns_id n) (if_id i) (pretty (id_counter w))
                  ++ [change_cmd (ns_id n) (if_id i) c1])
                 ++ [change_cmd (ns_id n) (if_id i) c2];
        faults := drop 7 (faults w) |}).
Proof.
  intros Hi Hn Hflag Hs.
  assert (H6 : succeed 6 (faults w)) by (eapply succeed_weaken; [exact Hs | lia]).
  pose proof (lookup_lt_Some _ _ _ Hi) as Hlt.
  unfold bind. rewrite (shaping_call_first w self i n c1 Hi Hn Hflag H6).
  match goal with |- shaping_call self c2 ?x = _ => set (w1 := x) end.
  assert (Hi1 : interfaces w1 !! self
                = Some (mirrored (length (interfaces w)) (ns_id n) (if_id i) i)).
  { subst w1. cbn [interfaces]. norm_store. reflexivity. }
  destruct (shaping_call_mirrored w1 self _ n c2 Hi1 Hn eq_refl)
    as [[H2 _] | (fs & Hfs & _)].
  - rewrite H2. subst w1. unfold set_trace, set_faults.
    cbn [id_counter namespaces interfaces trace faults mirrored if_id]. rewrite drop_drop.
    reflexivity.
  - exfalso. subst w1. cbn [faults] in Hfs.
    assert (H1 : succeed 1 (drop 6 (faults w))) by (eapply succeed_drop_1; [exact Hs | lia]).
    unfold succeed in H1. rewrite Hfs in H1. discriminate H1.
Qed.

Lemma dev_nodes_change_cmd (ns dev : string) (c : ShapingCall) (p : list TcNode)
    (t : list Cmd) :
  dev_nodes ns dev (run_trace p (t ++ [change_cmd ns dev c]))
  = map (node_change ns dev c) (dev_nodes ns dev (run_trace p t)).
Proof.
  rewrite run_trace_app. unfold run_trace at 1.
  destruct c; cbn [fold_left tc_step change_cmd node_change]; apply dev_nodes_change.
Qed.

(** X19: the two shaping calls commute on an unshaped interface: delay
    then rate, or rate then delay, end with the same objects, one mirror,
    and the same stage with the class at the given rate and the netem
    discipline at the given delay. *)
Theorem shaping_order_irrelevant (w : World) (self : if_ref) (i : Interface) (n : Namespace)
    (rate delay : string) :
  interfaces w !! self = Some i ->
  namespaces w !! if_namespace i = Some n ->
  if_mirred_to_ifb i = false ->
  dev_nodes (ns_id n) (if_id i) (pipeline w) = [] ->
  succeed 7 (faults w) ->
  exists w1 w2,
    (set_delay self delay ;; set_min_bandwidth self rate) w = (Ok tt, w1)
    /\ (set_min_bandwidth self rate ;; set_delay self delay) w = (Ok tt, w2)
    /\ interfaces w1 = interfaces w2
    /\ mirrors_created w1 = mirrors_created w + 1
    /\ mirrors_created w2 = mirrors_created w + 1
    /\ dev_nodes (ns_id n) (if_id i) (pipeline w1) =
         canonical_stage (ns_id n) (if_id i) (pretty (id_counter w))
           [("rate", rate)] [("delay", delay)]
    /\ dev_nodes (ns_id n) (if_id i) (pipeline w2) =
         canonical_stage (ns_id n) (if_id i) (pretty (id_counter w))
           [("rate", rate)] [("delay", delay)].
Proof.
  intros Hi Hn Hflag Hp Hs.
  pose proof (shaping_call_twice w self i n (SetDelay delay) (SetMinBandwidth rate)
                Hi Hn Hflag Hs) as H1.
  pose proof (shaping_call_twice w self i n (SetMinBandwidth rate) (SetDelay delay)
                Hi Hn Hflag Hs) as H2.
  cbn [shaping_call] in H1, H2.
  do 2 eexists. split; [exact H1|]. split; [exact H2|].
  split; [reflexivity|].
  assert (Hm : forall c1 c2, length (List.filter is_setup_ifb
            ((trace w ++ shaping_stage (ns_id n) (if_id i) (pretty (id_counter w))
              ++ [change_cmd (ns_id n) (if_id i) c1])
             ++ [change_cmd (ns_id n) (if_id i) c2])) = mirrors_created w + 1).
  { intros c1 c2. rewrite mirrors_created_change. apply mirrors_created_first. }
  split; [apply Hm|]. split; [apply Hm|].
  unfold pipeline. cbn [trace].
  rewrite !dev_nodes_change_cmd, !(run_trace_app [] (trace w)).
  rewrite !dev_nodes_first_call by exact Hp.
  cbn [node_change class_params_after netem_params_after].
  rewrite canonical_change_rate, canonical_change_delay. split; reflexivity.
Qed.

(** X20: the guard of the stage is in the shaping calls, not in
    [_mirred_to_ifb]: called on an interface that has a mirror, the helper
    makes a second mirror object, which replaces the first, sets it up and
    records the two disciplines and the class once more. *)
Theorem mirred_to_ifb_unguarded (w : World) (self b : if_ref) (i : Interface)
    (n : Namespace) :
  interfaces w !! self = Some i ->
  namespaces w !! if_namespace i = Some n ->
  if_ifb i = Some b ->
  b < length (interfaces w) ->
  succeed 5 (faults w) ->
  exists w' i',
    _mirred_to_ifb self w = (Ok tt, w')
    /\ interfaces w' !! self = Some i'
    /\ if_ifb i' = Some (length (interfaces w))
    /\ if_ifb i' <> Some b
    /\ length (interfaces w') = S (length (interfaces w))
    /\ mirrors_created w' = mirrors_created w + 1
    /\ length (qdisc_list i') = length (qdisc_list i) + 2
    /\ length (class_list i') = length (class_list i) + 1.
Proof.
  intros Hi Hn Hb Hbl Hs.
  pose proof (lookup_lt_Some _ _ _ Hi) as Hlt.
  rewrite (mirred_to_ifb_complete w self i n Hi Hn Hs).
  do 2 eexists. split; [reflexivity|]. cbn [interfaces].
  split; [rewrite lookup_app_l by (rewrite length_insert; exact Hlt);
          apply list_lookup_insert_eq; exact Hlt|].
  cbn [mirrored if_ifb qdisc_list class_list].
  split; [reflexivity|].
  split; [intros [= E]; lia|].
  split; [rewrite length_snoc, length_insert; reflexivity|].
  split.
  { unfold mirrors_created. cbn [trace]. rewrite List.filter_app, length_app. reflexivity. }
  rewrite !length_app. split; reflexivity.
Qed.

(** ** Pairs along histories *)

Section PairKept.

Variable Address_init : string -> option Address.
Variable r : if_ref.

Lemma has_pair_update (nss : list Namespace) (ifs : list Interface) (x : if_ref)
    (i : Interface) (f : Interface -> Interface) :
  (is_Some (if_pair i) -> is_Some (if_pair (f i))) ->
  ifs !! x = Some i -> has_pair r nss ifs -> has_pair r nss (<[x := f i]> ifs).
Proof.
  intros Hf Hx (j & Hj & Hp). destruct (decide (x = r)) as [-> | Hne].
  - exists (f i). split.
    + apply list_lookup_insert_eq. eapply lookup_lt_Some. exact Hx.
    + apply Hf. congruence.
  - exists j. split; [|exact Hp]. rewrite list_lookup_insert_ne by exact Hne. exact Hj.
Qed.

Lemma has_pair_alloc (nss : list Namespace) (ifs : list Interface) (x : Interface) :
  has_pair r nss ifs -> has_pair r nss (ifs ++ [x]).
Proof.
  intros (j & Hj & Hp). exists j. split; [|exact Hp].
  apply lookup_app_l_Some. exact Hj.
Qed.

(** X21: no call clears a pair: an interface that has a pair has one
    after any history of calls, [_set_pair] included, whether they return
    or raise. *)
Theorem pair_never_cleared (ops : list Op) (w : World) (q : if_ref) :
  pair_of (interfaces w) r = Some (Some q) ->
  exists q', pair_of (interfaces (run Address_init ops w)) r = Some (Some q').
Proof.
  intros H.
  assert (H0 : has_pair r (namespaces w) (interfaces w)).
  { unfold pair_of in H. destruct (interfaces w !! r) as [i|] eqn:Hi; [|discriminate H].
    exists i. split; [exact Hi|]. injection H as ->. eauto. }
  assert (H1 : has_pair r (namespaces (run Address_init ops w))
                 (interfaces (run Address_init ops w))).
  { apply (run_keeps Address_init (has_pair r) (fun _ => True) (fun _ => True)).
    - intros nss ifs n0 H1. exact H1.
    - intros nss ifs x n0 l _ H1. exact H1.
    - intros nss ifs name id ns. apply has_pair_alloc.
    - intros nss ifs x i f Hf. apply has_pair_update. destruct (Hf i) as [-> _]. trivial.
    - intros nss ifs x i b _. apply has_pair_update. intros _. cbn. eauto.
    - intros nss ifs x i b _. apply has_pair_update. trivial.
    - intros ns1 ns2 a b.
      apply (sat_Veth_init_pairs (has_pair r) (fun _ => True)).
      + intros nss ifs name id ns. apply has_pair_alloc.
      + intros nss ifs x i b0 _. apply has_pair_update. intros _. cbn. eauto.
      + intros x. exact I.
    - apply Forall_forall. intros op _. destruct op; exact I.
    - exact H0. }
  destruct H1 as (j & Hj & [q' Hq]). exists q'. unfold pair_of. rewrite Hj. cbn.
  rewrite Hq. reflexivity.
Qed.

End PairKept.

(** ** The theorems at the sample topologies *)

Lemma set_min_bandwidth_twice_witness :
  exists w2,
    (set_min_bandwidth 0 "10mbit" ;; set_min_bandwidth 0 "5mbit") two_links_world = (Ok tt, w2)
    /\ dev_classes "0" "2" (pipeline w2) =
         [ {| tn_ns := "0"; tn_dev := "2"; tn_kind := KClass; tn_type := "htb";
              tn_parent := "1:"; tn_handle := "1:1"; tn_params := [("rate", "5mbit")] |} ].
Proof.
  destruct (set_min_bandwidth_twice two_links_world 0 (the_interface two_links_world 0)
              (the_namespace two_links_world 0) "10mbit" "5mbit")
    as (w2 & i2 & H1 & _ & _ & H4 & _); [vm_compute; reflexivity ..|].
  exists w2. split; [exact H1 | exact H4].
Defined.


Lemma failed_transition_keeps_flag_witness :
  exists w',
    shaping_call 0 (SetDelay "5ms") (set_faults [false; true] two_links_world)
      = (Raise ExternalCommandFailed, w')
    /\ (if_mirred_to_ifb <$> interfaces w' !! 0) = Some true.
Proof.
  destruct (failed_transition_keeps_flag (set_faults [false; true] two_links_world) 0
              (the_interface two_links_world 0) (the_namespace two_links_world 0)
              (SetDelay "5ms") 1 [])
    as (w' & i' & H1 & H2 & H3 & _).
  - vm_compute; reflexivity.
  - vm_compute; reflexivity.
  - vm_compute; reflexivity.
  - lia.
  - vm_compute; reflexivity.
  - exists w'. split; [exact H1|]. rewrite H2. cbn. rewrite H3. reflexivity.
Defined.

Lemma set_pair_overwrites_witness :
  exists w', _set_pair 0 2 two_links_world = (Ok tt, w')
    /\ pair_of (interfaces w') 0 = Some (Some 2).
Proof.
  destruct (set_pair_overwrites two_links_world 0 2 (the_interface two_links_world 0))
    as (w' & H1 & H2 & _); [vm_compute; reflexivity|].
  exists w'. split; [exact H1|]. unfold pair_of. rewrite H2. reflexivity.
Defined.

Lemma pair_symmetry_kept_witness :
  let w' := (connect 0 1 "" "" two_nodes_world).2 in
  let w'' := run any_address [OSetMinBandwidth 0 "5mbit"; OConnect 0 1 "" ""] w' in
  pair_of (interfaces w'') 0 = Some (Some 1)
  /\ pair_of (interfaces w'') 1 = Some (Some 0)
  /\ pair_symmetric (interfaces w'').
Proof.
  intros w' w''.
  destruct (pair_symmetry_kept any_address two_nodes_world w' 0 1 "" "" 0 1
              [OSetMinBandwidth 0 "5mbit"; OConnect 0 1 "" ""])
    as (_ & [Ha Hb] & Hs).
  - vm_compute; reflexivity.
  - repeat constructor.
  - split; [exact Ha|]. split; [exact Hb|]. apply Hs.
    intros A B H. vm_compute in H. discriminate H.
Defined.

Lemma first_shaping_call_builds_stage_once_witness :
  exists w1,
    shaping_call 1 (SetDelay "5ms") two_links_world = (Ok tt, w1)
    /\ mirrors_created w1 = 1
    /\ mirrors_created (shaping_calls 1 [SetMinBandwidth "10mbit"; SetDelay "1ms"] w1) = 1
    /\ interfaces (shaping_calls 1 [SetMinBandwidth "10mbit"; SetDelay "1ms"] w1)
       = interfaces w1.
Proof.
  destruct (first_shaping_call_builds_stage_once two_links_world 1
              (the_interface two_links_world 1) (the_namespace two_links_world 1)
              (SetDelay "5ms") [SetMinBandwidth "10mbit"; SetDelay "1ms"])
    as (w1 & H1 & _ & H3 & _ & _ & H6 & H7 & _); [vm_compute; reflexivity ..|].
  exists w1. split; [exact H1|]. split; [exact H3|]. split; [exact H7 | exact H6].
Defined.

Lemma set_address_set_mode_guard_witness :
  (set_address any_address 0 (AStr "10.0.1.1/24") host_and_node_world
     = (Raise NotImplementedError, host_and_node_world)
   /\ set_mode 0 "UP" host_and_node_world = (Raise NotImplementedError, host_and_node_world))
  /\ exists w1,
       set_address any_address 1 (AStr "10.0.1.1/24") host_and_node_world = (Ok tt, w1)
       /\ (if_address <$> interfaces w1 !! 1) = Some (Some {| ip_addr := "10.0.1.1/24" |}).
Proof.
  split.
  - apply (set_address_set_mode_guard any_address host_and_node_world 0
             (the_interface host_and_node_world 0) (the_namespace host_and_node_world 0)
             (AStr "10.0.1.1/24") {| ip_addr := "10.0.1.1/24" |} "UP");
      [vm_compute; reflexivity | vm_compute; reflexivity | reflexivity | left; reflexivity
      | vm_compute; reflexivity].
  - destruct (set_address_set_mode_guard any_address host_and_node_world 1
             (the_interface host_and_node_world 1) (the_namespace host_and_node_world 1)
             (AStr "10.0.1.1/24") {| ip_addr := "10.0.1.1/24" |} "UP") as [_ H];
      [vm_compute; reflexivity | vm_compute; reflexivity | reflexivity | left; reflexivity|].
    destruct H as [(w1 & H1 & H2 & _) _]; [vm_compute; discriminate | vm_compute; reflexivity|].
    exists w1. split; [exact H1|]. rewrite H2. reflexivity.
Defined.

Lemma set_mode_invalid_witness :
  set_mode 0 "up" two_links_world = (Raise ValueError, two_links_world).
Proof. apply (set_mode_invalid two_links_world 0 "up"); discriminate. Defined.

Lemma set_qdisc_before_shaping_witness :
  let w := run any_address
             [ONode "n0"; ONode "r0"; OConnect 0 1 "" ""; OSetMinBandwidth 1 "5mbit"]
             (initial_world []) in
  set_qdisc 0 "codel" w = (Raise AttributeError, w).
Proof.
  intros w.
  apply (set_qdisc_before_shaping any_address 0 []
           [ONode "n0"; ONode "r0"; OConnect 0 1 "" ""; OSetMinBandwidth 1 "5mbit"] "codel").
  - repeat constructor.
  - vm_compute. lia.
Defined.

Lemma namespace_name_and_id_witness :
  (exists r w', Namespace_init "" empty_world = (Ok r, w')
     /\ get_name r w' = (Raise AttributeError, w')
     /\ Namespace_get_id r w' = (Ok "default", w'))
  /\ (exists r w', Namespace_init "n0" empty_world = (Ok r, w')
     /\ get_name r w' = (Ok "n0", w')
     /\ Namespace_get_id r w' = (Ok "0", w')).
Proof.
  destruct (namespace_name_and_id any_address empty_world "" []) as [H _].
  destruct (namespace_name_and_id any_address empty_world "n0" []) as [_ H'].
  split.
  - destruct H as (r & w' & H1 & _ & H3); [reflexivity|].
    exists r, w'. split; [exact H1|]. apply H3. left. reflexivity.
  - destruct H' as (r & w' & H1 & _ & _ & _ & H3); [discriminate | reflexivity|].
    exists r, w'. split; [exact H1|]. apply H3. left. reflexivity.
Defined.

(** ** The further theorems at sample topologies *)

Lemma add_interface_keeps_old_owner_witness :
  exists w',
    (add_interface 0 0 ;; add_interface 1 0) host_and_node_world = (Ok tt, w')
    /\ (interface_list <$> namespaces w' !! 0) = Some [0]
    /\ (interface_list <$> namespaces w' !! 1) = Some [0]
    /\ (if_namespace <$> interfaces w' !! 0) = Some 1.
Proof.
  destruct (add_interface_keeps_old_owner host_and_node_world 0 1 0
              (the_namespace host_and_node_world 0) (the_namespace host_and_node_world 1)
              (the_interface host_and_node_world 0))
    as (w' & H1 & H2 & H3 & H4 & _).
  - vm_compute; reflexivity.
  - vm_compute; reflexivity.
  - lia.
  - vm_compute; reflexivity.
  - vm_compute; reflexivity.
  - exists w'. split; [exact H1|]. rewrite H2, H3, H4. repeat split; reflexivity.
Defined.

Lemma add_interface_failure_keeps_changes_witness :
  exists w',
    add_interface 1 1 (set_faults [true] host_and_node_world)
      = (Raise ExternalCommandFailed, w')
    /\ (interface_list <$> namespaces w' !! 1) = Some [1]
    /\ trace w' = trace host_and_node_world.
Proof.
  destruct (add_interface_failure_keeps_changes (set_faults [true] host_and_node_world) 1 1
              (the_namespace host_and_node_world 1) (the_interface host_and_node_world 1) [])
    as (w' & H1 & H2 & _ & H4); [vm_compute; reflexivity ..|].
  exists w'. split; [exact H1|]. rewrite H2. split; [reflexivity | exact H4].
Defined.

Lemma number_of_connections_unordered_witness :
  number_of_connections 0 1 three_nodes_world = number_of_connections 1 0 three_nodes_world.
Proof.
  apply (number_of_connections_unordered three_nodes_world 0 1
           (the_namespace three_nodes_world 0) (the_namespace three_nodes_world 1)).
  - vm_compute; reflexivity.
  - vm_compute; reflexivity.
  - vm_compute; lia.
Defined.

Lemma connect_unpaired_interface_witness :
  number_of_connections 0 1 lone_interfaces_world = (Raise AttributeError, lone_interfaces_world)
  /\ connect 0 1 "" "" lone_interfaces_world = (Raise AttributeError, lone_interfaces_world).
Proof.
  apply (connect_unpaired_interface lone_interfaces_world 0 1
           (the_namespace lone_interfaces_world 0) (the_namespace lone_interfaces_world 1)).
  - vm_compute; reflexivity.
  - vm_compute; reflexivity.
  - constructor; [|constructor]. eexists. split; [vm_compute; reflexivity | exact I].
  - constructor. eexists. split; vm_compute; reflexivity.
Defined.

Lemma connect_same_namespace_witness :
  exists w1,
    connect 0 0 "" "" two_nodes_world = (Ok (0, 1), w1)
    /\ (if_name <$> interfaces w1) = ["0-0-0"; "0-0-0"]
    /\ number_of_connections 0 0 w1 = (Ok 2, w1).
Proof.
  destruct (connect_same_namespace two_nodes_world 0 (the_namespace two_nodes_world 0) 0)
    as (w1 & H1 & _ & _ & _ & H5).
  - vm_compute; reflexivity.
  - vm_compute; discriminate.
  - vm_compute; reflexivity.
  - vm_compute; reflexivity.
  - exists w1. split; [exact H1|]. split; [|exact H5].
    pose proof H1 as E. vm_compute in E. injection E as <-. vm_compute. reflexivity.
Defined.

Lemma connect_given_names_witness :
  exists w1,
    connect 0 1 "eth0" "" two_nodes_world = (Ok (0, 1), w1)
    /\ (if_name <$> interfaces w1) = ["eth0"; ""].
Proof.
  destruct (connect_given_names two_nodes_world 0 1
              (the_namespace two_nodes_world 0) (the_namespace two_nodes_world 1) "eth0" "")
    as (w1 & H1 & H2 & _).
  - vm_compute; reflexivity.
  - vm_compute; reflexivity.
  - lia.
  - vm_compute; discriminate.
  - vm_compute; discriminate.
  - left; discriminate.
  - vm_compute; reflexivity.
  - exists w1. split; [exact H1|]. rewrite H2. vm_compute. reflexivity.
Defined.

Lemma connect_default_namespace_witness :
  exists w1,
    connect 0 1 "eth0" "eth1" host_and_node_world = (Raise NotImplementedError, w1)
    /\ length (interfaces w1) = 4
    /\ (interface_list <$> namespaces w1 !! 0) = Some [2]
    /\ (interface_list <$> namespaces w1 !! 1) = Some [3].
Proof.
  destruct (connect_default_namespace host_and_node_world 0 1
              (the_namespace host_and_node_world 0) (the_namespace host_and_node_world 1)
              "eth0" "eth1")
    as (w1 & H1 & H2 & H3 & H4 & _).
  - vm_compute; reflexivity.
  - vm_compute; reflexivity.
  - lia.
  - vm_compute; reflexivity.
  - left; discriminate.
  - vm_compute; reflexivity.
  - exists w1. split; [exact H1|]. rewrite H2, H3, H4. vm_compute. repeat split; reflexivity.
Defined.

Lemma rejected_address_first_witness :
  set_address nonempty_address 0 (AStr "") host_and_node_world
    = (Raise AddressError, host_and_node_world)
  /\ add_route nonempty_address 1 (AStr "") (AStr "10.0.0.1") 1 host_and_node_world
    = (Raise AddressError, host_and_node_world).
Proof.
  destruct (rejected_address_first nonempty_address host_and_node_world 0 1 ""
              (AStr "10.0.0.1") 1) as (H1 & H2 & _); [reflexivity|].
  split; [exact H1 | exact H2].
Defined.

Lemma add_route_unchecked_witness :
  exists w',
    add_route any_address 0 (AStr "10.0.0.0/24") (AStr "10.0.1.1/24") 1 host_and_node_world
      = (Ok tt, w')
    /\ trace w' = trace host_and_node_world ++ [AddRoute "default" "10.0.0.0" "10.0.1.1" "2"].
Proof.
  destruct (add_route_unchecked any_address host_and_node_world 0
              (the_namespace host_and_node_world 0)
              (AStr "10.0.0.0/24") (AStr "10.0.1.1/24")
              {| ip_addr := "10.0.0.0/24" |} {| ip_addr := "10.0.1.1/24" |}
              1 (the_interface host_and_node_world 1))
    as (w' & H1 & _ & _ & H4); [vm_compute; reflexivity ..|].
  exists w'. split; [exact H1|]. rewrite H4. vm_compute. reflexivity.
Defined.

Lemma set_qdisc_installs_codel_on_mirror_witness :
  let w := (set_delay 0 "5ms" two_links_world).2 in
  exists w',
    set_qdisc 0 "pfifo" w = (Ok tt, w')
    /\ trace w' = trace w ++ [AddQdisc "0" "6" "codel" "root" "" []].
Proof.
  intros w.
  destruct (set_qdisc_installs_codel_on_mirror w 0 4 (the_interface w 0) (the_interface w 4)
              (the_namespace w 0) "pfifo")
    as (w' & H1 & _ & H3); [vm_compute; reflexivity ..|].
  exists w'. split; [exact H1 | exact H3].
Defined.

Lemma add_qdisc_add_class_same_handle_witness :
  exists c w',
    (add_qdisc 0 "htb" "root" "1:" [] ;; add_qdisc 0 "htb" "root" "1:" [] ;;
     add_class 0 "htb" "root" "1:" [] ;; add_class 0 "htb" "root" "1:" []) two_links_world
      = (Ok c, w')
    /\ (length <$> (qdisc_list <$> interfaces w' !! 0)) = Some 2
    /\ (length <$> (class_list <$> interfaces w' !! 0)) = Some 2.
Proof.
  destruct (add_qdisc_add_class_same_handle two_links_world 0 (the_interface two_links_world 0)
              (the_namespace two_links_world 0) "htb" "root" "1:" [])
    as (w' & H1 & H2 & H3 & _); [vm_compute; reflexivity ..|].
  eexists. exists w'. split; [exact H1|]. rewrite H2, H3. split; reflexivity.
Defined.

Lemma Router_init_forwarding_witness :
  exists w', Router_init "" empty_world = (Ok 0, w')
    /\ trace w' = [EnIpForwarding "default"].
Proof.
  destruct (Router_init_forwarding empty_world "") as (w' & H1 & H2 & _);
    [vm_compute; reflexivity|].
  exists w'. split; [exact H1 | exact H2].
Defined.

Lemma Router_init_fails_after_create_witness :
  exists w',
    Router_init "r0" (set_faults [false; true] empty_world) = (Raise ExternalCommandFailed, w')
    /\ trace w' = [CreateNs "0"].
Proof.
  destruct (Router_init_fails_after_create (set_faults [false; true] empty_world) "r0" [])
    as (w' & H1 & H2 & _); [discriminate | reflexivity|].
  exists w'. split; [exact H1 | exact H2].
Defined.

Lemma shaping_keeps_link_count_witness :
  let w' := (shaping_call 0 (SetDelay "5ms") two_links_world).2 in
  number_of_connections 0 1 w' = (Ok 2, w').
Proof.
  intros w'.
  apply (shaping_keeps_link_count two_links_world 0 (the_interface two_links_world 0)
           (the_namespace two_links_world 0) (SetDelay "5ms") 0 1 2).
  - vm_compute; reflexivity.
  - vm_compute; reflexivity.
  - right. vm_compute; reflexivity.
  - vm_compute; reflexivity.
Defined.

Lemma shaping_order_irrelevant_witness :
  exists w1 w2,
    (set_delay 0 "5ms" ;; set_min_bandwidth 0 "5mbit") two_links_world = (Ok tt, w1)
    /\ (set_min_bandwidth 0 "5mbit" ;; set_delay 0 "5ms") two_links_world = (Ok tt, w2)
    /\ interfaces w1 = interfaces w2
    /\ dev_nodes "0" "2" (pipeline w1) = dev_nodes "0" "2" (pipeline w2).
Proof.
  destruct (shaping_order_irrelevant two_links_world 0 (the_interface two_links_world 0)
              (the_namespace two_links_world 0) "5mbit" "5ms")
    as (w1 & w2 & H1 & H2 & H3 & _ & _ & H6 & H7); [vm_compute; reflexivity ..|].
  exists w1, w2. split; [exact H1|]. split; [exact H2|]. split; [exact H3|].
  change (ns_id (the_namespace two_links_world 0)) with "0" in H6, H7.
  change (if_id (the_interface two_links_world 0)) with "2" in H6, H7.
  rewrite H6, H7. reflexivity.
Defined.

Lemma Veth_not_registered_witness :
  exists w',
    Veth_init 0 1 "eth0" "eth1" two_links_world = (Ok (4, 5), w')
    /\ namespaces w' = namespaces two_links_world
    /\ number_of_connections 0 1 w' = (Ok 2, w').
Proof.
  destruct (Veth_not_registered two_links_world 0 1 "eth0" "eth1" 0 1 2)
    as (w' & H1 & H2 & _ & _ & _ & H6); [vm_compute; reflexivity ..|].
  exists w'. split; [exact H1|]. split; [exact H2 | exact H6].
Defined.

Lemma set_address_twice_witness :
  exists w',
    (set_address any_address 0 (AStr "10.0.1.1/24") ;;
     set_address any_address 0 (AStr "10.0.2.1/24") ;; get_address 0) two_links_world
      = (Ok (Some {| ip_addr := "10.0.2.1/24" |}), w')
    /\ trace w' = trace two_links_world
                  ++ [AssignIp "0" "2" "10.0.1.1/24"; AssignIp "0" "2" "10.0.2.1/24"].
Proof.
  destruct (set_address_twice any_address two_links_world 0 (the_interface two_links_world 0)
              (the_namespace two_links_world 0) (AStr "10.0.1.1/24") (AStr "10.0.2.1/24")
              {| ip_addr := "10.0.1.1/24" |} {| ip_addr := "10.0.2.1/24" |})
    as (w' & H1 & _ & H3).
  - vm_compute; reflexivity.
  - vm_compute; reflexivity.
  - vm_compute; discriminate.
  - reflexivity.
  - reflexivity.
  - vm_compute; reflexivity.
  - exists w'. split; [exact H1 | exact H3].
Defined.

Lemma connect_fails_bringing_up_witness :
  exists w1,
    connect 0 1 "" "" (set_faults [false; false; false; true] two_nodes_world)
      = (Raise ExternalCommandFailed, w1)
    /\ number_of_connections 0 1 w1 = (Ok 1, w1).
Proof.
  destruct (connect_fails_bringing_up (set_faults [false; false; false; true] two_nodes_world)
              0 1 (the_namespace two_nodes_world 0) (the_namespace two_nodes_world 1) 0 [])
    as (w1 & H1 & _ & H3).
  - vm_compute; reflexivity.
  - vm_compute; reflexivity.
  - lia.
  - vm_compute; discriminate.
  - vm_compute; reflexivity.
  - vm_compute; reflexivity.
  - exists w1. split; [exact H1 | exact H3].
Defined.

Lemma connect_fails_creating_veth_witness :
  exists w1,
    connect 0 1 "" "" (set_faults [true] two_nodes_world) = (Raise ExternalCommandFailed, w1)
    /\ length (interfaces w1) = 2
    /\ number_of_connections 0 1 w1 = (Ok 0, w1).
Proof.
  destruct (connect_fails_creating_veth (set_faults [true] two_nodes_world) 0 1 0 [])
    as (w1 & H1 & _ & H3 & _ & _ & _ & _ & H8); [vm_compute; reflexivity ..|].
  exists w1. split; [exact H1|]. split; [exact H3 | exact H8].
Defined.

Lemma mirred_to_ifb_unguarded_witness :
  let w := (set_delay 0 "5ms" two_links_world).2 in
  exists w',
    _mirred_to_ifb 0 w = (Ok tt, w')
    /\ (if_ifb <$> interfaces w !! 0) = Some (Some 4)
    /\ (if_ifb <$> interfaces w' !! 0) = Some (Some 5)
    /\ mirrors_created w' = 2.
Proof.
  intros w.
  destruct (mirred_to_ifb_unguarded w 0 4 (the_interface w 0) (the_namespace w 0))
    as (w' & i' & H1 & H2 & H3 & _ & _ & H6 & _).
  - vm_compute; reflexivity.
  - vm_compute; reflexivity.
  - vm_compute; reflexivity.
  - vm_compute; lia.
  - vm_compute; reflexivity.
  - exists w'. split; [exact H1|]. split; [vm_compute; reflexivity|].
    split; [rewrite H2; cbn; rewrite H3; reflexivity | exact H6].
Defined.

Lemma pair_never_cleared_witness :
  exists q',
    pair_of (interfaces (run any_address
                           [OSetPair 0 2; OSetDelay 0 "5ms"; OConnect 0 1 "" ""]
                           two_links_world)) 0 = Some (Some q').
Proof.
  apply (pair_never_cleared any_address 0
           [OSetPair 0 2; OSetDelay 0 "5ms"; OConnect 0 1 "" ""] two_links_world 1).
  vm_compute; reflexivity.
Defined.
